(** * GMC-500 tool: the history decoder, the command layer and the flash reader

    A shallow embedding of [gmc_tools.py] ([get_save_type],
    [create_record_time], [bin_to_csv], [send_command], [get_cpm]) and of
    [App.get_history] from [gmc_Customgui.py].

    Conventions of the embedding:
    - a Python [bytes] object is a [list Z]; every element of a real byte
      string lies in [0, 255] ([wf_bytes]);
    - a Python exception is a constructor of [exn]; code that may raise
      returns a [result];
    - the module-level globals of [gmc_tools] that [bin_to_csv] declares
      [global] live in the scanner state as options: [None] is an unbound
      name, whose load raises [NameError];
    - text written to standard output and to the log file is not modelled. *)

From Stdlib Require Import Ascii String DecimalString ZArith Bool Lia Arith List Sorted.
Import ListNotations.
Local Open Scope Z_scope.

(** ** Exceptions and the error monad *)

Inductive exn : Type :=
| IndexError
| ValueError
| TypeError
| NameError
| OverflowError
| ZeroDivisionError
| AttributeError
| StructError
| SystemExit (code : Z).

Inductive result (A : Type) : Type :=
| Ok (a : A)
| Raise (e : exn).
Arguments Ok {A} a.
Arguments Raise {A} e.

Definition bind {A B : Type} (r : result A) (k : A -> result B) : result B :=
  match r with
  | Ok a => k a
  | Raise e => Raise e
  end.

Declare Scope result_scope.
Delimit Scope result_scope with result.
Notation "x <- r ;; k" := (bind r (fun x => k))
  (at level 61, r at next level, right associativity) : result_scope.
Notation "' pat <- r ;; k" := (bind r (fun x => match x with pat => k end))
  (at level 61, pat pattern, r at next level, right associativity) : result_scope.
Local Open Scope result_scope.

(** ** Byte strings *)

Definition bytes := list Z.

Definition wf_bytes (b : bytes) : Prop := Forall (fun x => 0 <= x <= 255) b.

(** [record[i]] for a non-negative index: [IndexError] past the end. *)
Definition getitem {A : Type} (l : list A) (i : nat) : result A :=
  match nth_error l i with
  | Some x => Ok x
  | None => Raise IndexError
  end.

(** [l[a:b]] for non-negative bounds: a slice never raises. *)
Definition slice {A : Type} (l : list A) (a b : nat) : list A :=
  firstn (b - a) (skipn a l).

(** [l.insert(k, x)]: past the end the element is appended. *)
Definition py_insert {A : Type} (k : nat) (x : A) (l : list A) : list A :=
  firstn k l ++ x :: skipn k l.

(** ** Calendar time: [datetime.datetime] *)

Record datetime : Type := mkDatetime {
  dt_year : Z;
  dt_month : Z;
  dt_day : Z;
  dt_hour : Z;
  dt_minute : Z;
  dt_second : Z
}.

Definition is_leap (y : Z) : bool :=
  (y mod 4 =? 0) && (negb (y mod 100 =? 0) || (y mod 400 =? 0)).

Definition days_in_month (y m : Z) : Z :=
  if m =? 2 then (if is_leap y then 29 else 28)
  else if (m =? 4) || (m =? 6) || (m =? 9) || (m =? 11) then 30
  else 31.

(** [datetime.strptime(rec_time, "%Y-%m-%d %H:%M:%S")] on the text
    [f"20{year:02d}-{month:02d}-{day:02d} {hour:02d}:{minute:02d}:{second:02d}"]:
    a field that does not fit its directive, or a date that does not exist,
    is a [ValueError].  A year of three digits makes the text start with five
    digits, which [%Y] (four digits, then [-]) refuses. *)
Definition strptime (year month day hour minute second : Z) : result datetime :=
  if (0 <=? year) && (year <=? 99)
     && (1 <=? month) && (month <=? 12)
     && (1 <=? day) && (day <=? days_in_month (2000 + year) month)
     && (0 <=? hour) && (hour <=? 23)
     && (0 <=? minute) && (minute <=? 59)
     && (0 <=? second) && (second <=? 59)
  then Ok (mkDatetime (2000 + year) month day hour minute second)
  else Raise ValueError.

(** [t + datetime.timedelta(minutes=1.0)]; [OverflowError] beyond year 9999. *)
Definition add_minute (t : datetime) : result datetime :=
  if dt_minute t <? 59 then
    Ok (mkDatetime (dt_year t) (dt_month t) (dt_day t) (dt_hour t)
                   (dt_minute t + 1) (dt_second t))
  else if dt_hour t <? 23 then
    Ok (mkDatetime (dt_year t) (dt_month t) (dt_day t) (dt_hour t + 1)
                   0 (dt_second t))
  else if dt_day t <? days_in_month (dt_year t) (dt_month t) then
    Ok (mkDatetime (dt_year t) (dt_month t) (dt_day t + 1) 0 0 (dt_second t))
  else if dt_month t <? 12 then
    Ok (mkDatetime (dt_year t) (dt_month t + 1) 1 0 0 (dt_second t))
  else if dt_year t <? 9999 then
    Ok (mkDatetime (dt_year t + 1) 1 1 0 0 (dt_second t))
  else Raise OverflowError.

(** ** [create_record_time] *)

Definition create_record_time (data : bytes) : result datetime :=
  year <- getitem data 3 ;;
  month <- getitem data 4 ;;
  day <- getitem data 5 ;;
  hour <- getitem data 6 ;;
  minute <- getitem data 7 ;;
  second <- getitem data 8 ;;
  strptime year month day hour minute second.

(** ** [get_save_type] *)

Definition get_save_type (save_type : Z) : result (string * Z) :=
  if save_type =? 0 then Ok ("history saving deactivated"%string, 0)
  else if save_type =? 1 then Ok ("Every Second"%string, 1)
  else if save_type =? 2 then Ok ("Every Minute"%string, 60)
  else if save_type =? 3 then Ok ("Every Hour"%string, 3600)
  else if save_type =? 4 then Ok ("Every Second if exceeding threshold"%string, 1)
  else if save_type =? 5 then Ok ("Every Minute if exceeding threshold"%string, 60)
  else Raise (SystemExit 1).

(** ** The history decoder: [bin_to_csv] *)

(** The elements of the row under construction, [lst]: a timestamp, the text
    of the save mode, and integers. *)
Inductive pyval : Type :=
| VTime (t : datetime)
| VStr (s : string)
| VInt (n : Z).

(** The globals that [bin_to_csv] reads and writes; they outlive a call, and
    in a freshly imported module none of them is bound. *)
Record globals : Type := mkGlobals {
  g_record_time : option datetime;
  g_save_interval : option Z;
  g_save_txt : option string;
  g_new_timestamp : option bool
}.

Definition fresh_globals : globals := mkGlobals None None None None.

(** The locals of [bin_to_csv] together with the globals.  [parsed_df] holds
    the rows of the data frame, oldest first. *)
Record state : Type := mkState {
  i : nat;
  counter_per_minute : nat;
  lst : list pyval;
  cps : nat;
  store_data : bool;
  parsed_df : list (list pyval);
  record_time : option datetime;
  save_interval : option Z;
  save_txt : option string;
  new_timestamp : option bool
}.

Definition set_i (s : state) (v : nat) : state :=
  mkState v (counter_per_minute s) (lst s) (cps s) (store_data s) (parsed_df s)
          (record_time s) (save_interval s) (save_txt s) (new_timestamp s).
Definition set_counter_per_minute (s : state) (v : nat) : state :=
  mkState (i s) v (lst s) (cps s) (store_data s) (parsed_df s)
          (record_time s) (save_interval s) (save_txt s) (new_timestamp s).
Definition set_lst (s : state) (v : list pyval) : state :=
  mkState (i s) (counter_per_minute s) v (cps s) (store_data s) (parsed_df s)
          (record_time s) (save_interval s) (save_txt s) (new_timestamp s).
Definition set_cps (s : state) (v : nat) : state :=
  mkState (i s) (counter_per_minute s) (lst s) v (store_data s) (parsed_df s)
          (record_time s) (save_interval s) (save_txt s) (new_timestamp s).
Definition set_store_data (s : state) (v : bool) : state :=
  mkState (i s) (counter_per_minute s) (lst s) (cps s) v (parsed_df s)
          (record_time s) (save_interval s) (save_txt s) (new_timestamp s).
Definition set_parsed_df (s : state) (v : list (list pyval)) : state :=
  mkState (i s) (counter_per_minute s) (lst s) (cps s) (store_data s) v
          (record_time s) (save_interval s) (save_txt s) (new_timestamp s).
Definition set_record_time (s : state) (v : datetime) : state :=
  mkState (i s) (counter_per_minute s) (lst s) (cps s) (store_data s) (parsed_df s)
          (Some v) (save_interval s) (save_txt s) (new_timestamp s).
Definition set_save_interval (s : state) (v : Z) : state :=
  mkState (i s) (counter_per_minute s) (lst s) (cps s) (store_data s) (parsed_df s)
          (record_time s) (Some v) (save_txt s) (new_timestamp s).
Definition set_save_txt (s : state) (v : string) : state :=
  mkState (i s) (counter_per_minute s) (lst s) (cps s) (store_data s) (parsed_df s)
          (record_time s) (save_interval s) (Some v) (new_timestamp s).
Definition set_new_timestamp (s : state) (v : bool) : state :=
  mkState (i s) (counter_per_minute s) (lst s) (cps s) (store_data s) (parsed_df s)
          (record_time s) (save_interval s) (save_txt s) (Some v).

(** The state on entry to the [while] loop. *)
Definition init_state (g : globals) : state :=
  mkState 0 0 [] 0 false []
          (g_record_time g) (g_save_interval g) (g_save_txt g) (g_new_timestamp g).

(** Loading a global name. *)
Definition load {A : Type} (v : option A) : result A :=
  match v with
  | Some a => Ok a
  | None => Raise NameError
  end.

(** [record_time + counter_per_minute * save_interval]: [record_time] is a
    [datetime] and the right operand an [int]; neither type implements the
    sum, so the expression raises [TypeError] whatever the values. *)
Definition datetime_add_int (t : datetime) (n : Z) : result Z :=
  Raise TypeError.

(** [sum(l)]: starts from the integer 0, so an element that is not a number
    raises [TypeError]. *)
Fixpoint py_sum_from (acc : Z) (l : list pyval) : result Z :=
  match l with
  | [] => Ok acc
  | VInt n :: l' => py_sum_from (acc + n) l'
  | _ :: _ => Raise TypeError
  end.

Definition py_sum (l : list pyval) : result Z := py_sum_from 0 l.

(** The data frame has the 63 columns [DateTime], [Type], [CPM] and
    [# 1 CPS] to [# 60 CPS]. *)
Definition n_columns : nat := 63.

(** [parsed_df.loc[len(parsed_df)] = row]: pandas appends the row, and raises
    [ValueError] when the row does not have one value per column. *)
Definition df_append (df : list (list pyval)) (row : list pyval)
  : result (list (list pyval)) :=
  if (length row =? n_columns)%nat then Ok (df ++ [row]) else Raise ValueError.

(** The block [if record[i] == 0x55: ...] at the head of the loop body. *)
Definition marker_phase (record : bytes) (s : state) : result state :=
  b0 <- getitem record (i s) ;;
  if b0 =? 0x55 then
    b1 <- getitem record (i s + 1) ;;
    if b1 =? 0xaa then
      tag <- getitem record (i s + 2) ;;
      if (tag =? 0) || (tag =? 5) then
        s1 <- (if tag =? 5 then
                 let s' := set_i s (i s + 4) in
                 t <- create_record_time (slice record (i s') (i s' + 10)) ;;
                 Ok (set_new_timestamp
                       (set_lst (set_cps (set_record_time s' t) 0) []) true)
               else
                 t <- create_record_time (slice record (i s) (i s + 10)) ;;
                 Ok (set_new_timestamp (set_record_time s t) true)) ;;
        let s2 := if (length (lst s1) =? 2)%nat then set_lst s1 [] else s1 in
        t <- load (record_time s2) ;;
        let s3 := set_store_data (set_lst s2 (lst s2 ++ [VTime t])) true in
        save_type <- getitem record (i s3 + 11) ;;
        '(txt, _) <- get_save_type save_type ;;
        '(_, interval) <- get_save_type save_type ;;
        let s4 := set_save_interval (set_save_txt s3 txt) interval in
        Ok (set_i (set_lst s4 (lst s4 ++ [VStr txt])) (i s4 + 12))
      else if tag =? 1 then
        msb <- getitem record (i s + 3) ;;
        lsb <- getitem record (i s + 4) ;;
        let cpm := msb * 256 + lsb in
        t <- load (record_time s) ;;
        interval <- load (save_interval s) ;;
        _ <- datetime_add_int t (Z.of_nat (counter_per_minute s) * interval) ;;
        Ok (set_counter_per_minute (set_i s (i s + 4)) (counter_per_minute s + 1))
      else Ok s
    else
      let s1 := if store_data s
                then set_lst s (lst s ++ [VInt (Z.of_nat (i s))]) else s in
      Ok (set_cps (set_i s1 (i s1 + 1)) (cps s1 + 1))
  else Ok s.

(** The block [if store_data: ...] and the [i += 1] after it. *)
Definition sample_phase (record : bytes) (s : state) : result state :=
  s1 <- (if store_data s then
           b <- getitem record (i s) ;;
           Ok (set_cps (set_lst s (lst s ++ [VInt b])) (cps s + 1))
         else Ok s) ;;
  Ok (set_i s1 (i s1 + 1)).

(** The block [if cps == 60: ...]. *)
Definition row_phase (s : state) : result state :=
  if (cps s =? 60)%nat then
    total <- py_sum (slice (lst s) 2 62) ;;
    let row := py_insert 2 (VInt total) (lst s) in
    df <- df_append (parsed_df s) row ;;
    let s1 := set_lst (set_cps (set_parsed_df s df) 0) [] in
    t <- load (record_time s1) ;;
    record_time_new <- add_minute t ;;
    if negb (length (lst s1) =? 0)%nat then Ok s1
    else
      let s2 := set_record_time s1 record_time_new in
      let s3 := set_lst s2 (lst s2 ++ [VTime record_time_new]) in
      txt <- load (save_txt s3) ;;
      Ok (set_lst s3 (lst s3 ++ [VStr txt]))
  else Ok s.

(** The test [record[i] == 255 and record[i + 1] == 255 and record[i + 2] == 255]
    that ends the loop body; [and] evaluates its operands left to right and
    stops at the first false one. *)
Definition eod_check (record : bytes) (s : state) : result bool :=
  a <- getitem record (i s) ;;
  if a =? 255 then
    b <- getitem record (i s + 1) ;;
    if b =? 255 then
      c <- getitem record (i s + 2) ;;
      Ok (c =? 255)
    else Ok false
  else Ok false.

(** The three phases of the loop body that come before the end-of-data test. *)
Definition phases (record : bytes) (s : state) : result state :=
  s1 <- marker_phase record s ;;
  s2 <- sample_phase record s1 ;;
  row_phase s2.

(** What one pass through the loop body leads to. *)
Inductive outcome : Type :=
| Running (s : state)
| Returned (df : list (list pyval))
| Raised (e : exn).

Definition body (record : bytes) (s : state) : outcome :=
  match phases record s with
  | Raise e => Raised e
  | Ok s' =>
      match eod_check record s' with
      | Raise e => Raised e
      | Ok true => Returned (parsed_df s')
      | Ok false => Running s'
      end
  end.

(** How a call of [bin_to_csv] ends: with the CSV file written from inside the
    loop (the function returns its message), with the CSV file written after
    the loop, or with an exception and no CSV file. *)
Inductive final : Type :=
| CsvAtSentinel (df : list (list pyval))
| CsvAtEnd (df : list (list pyval))
| Uncaught (e : exn).

(** [while i < data_length: body], with [None] when the fuel runs out. *)
Fixpoint scan (fuel : nat) (record : bytes) (s : state) : option final :=
  if (i s <? length record)%nat then
    match fuel with
    | O => None
    | S fuel' =>
        match body record s with
        | Running s' => scan fuel' record s'
        | Returned df => Some (CsvAtSentinel df)
        | Raised e => Some (Uncaught e)
        end
    end
  else Some (CsvAtEnd (parsed_df s)).

(** Every pass advances [i], so [len(chunk)] passes are enough
    ([bin_to_csv_total]). *)
Definition bin_to_csv (record : bytes) (g : globals) : option final :=
  scan (length record) record (init_state g).

(** ** The command layer: [send_command] and [get_cpm] *)

(** The serial line as the code sees it: whether [test_serial] can open the
    port, and the bytes the device sends within the timeout in answer to a
    command. *)
Record serial_port : Type := mkPort {
  port_ok : bool;
  device : bytes -> bytes
}.

(** What [send_command] returns: the bytes read, or the text of an error. *)
Inductive reply : Type :=
| RBytes (b : bytes)
| RStr (msg : string).

(** [ser.read(b_len)] returns the bytes that arrived before the timeout, at
    most [b_len] of them, and [send_command] returns them as they are.  When
    [test_serial] reports an error the error text is returned instead; a port
    that fails between [test_serial] and the exchange is not modelled. *)
Definition send_command (p : serial_port) (command : bytes) (b_len : nat) : reply :=
  if port_ok p
  then RBytes (firstn b_len (device p command))
  else RStr "Error occurred! Check serial connection".

(** The ASCII codes of a command name. *)
Definition ascii_bytes (s : string) : bytes :=
  map (fun c => Z.of_nat (Ascii.nat_of_ascii c)) (list_ascii_of_string s).

(** [int(b.hex(), 16)]: the big-endian value of [b]; the empty text is not a
    number. *)
Definition int_of_hex (b : bytes) : result Z :=
  match b with
  | [] => Raise ValueError
  | _ => Ok (fold_left (fun acc x => acc * 256 + x) b 0)
  end.

(** [f'{n}'] for an integer. *)
Definition str_of_int (n : Z) : string :=
  NilZero.string_of_int (Z.to_int n).

Definition get_cpm (p : serial_port) : result string :=
  match send_command p (ascii_bytes "<GETCPM>>") 4 with
  | RBytes raw_cpm =>
      cpm <- int_of_hex (slice raw_cpm 2 4) ;;
      Ok ("Current CPM are: " ++ str_of_int cpm)%string
  | RStr _ => Raise AttributeError
  end.

(** ** The flash reader: [App.get_history] *)

Definition DEFAULT_FLASH_SIZE : Z := 1048576.

(** [struct.pack(">I", n)] and [struct.pack(">H", n)]: big-endian, and
    [struct.error] when [n] does not fit. *)
Definition pack_I (n : Z) : result bytes :=
  if (0 <=? n) && (n <? 2 ^ 32)
  then Ok [n / 2 ^ 24 mod 256; n / 2 ^ 16 mod 256; n / 2 ^ 8 mod 256; n mod 256]
  else Raise StructError.

Definition pack_H (n : Z) : result bytes :=
  if (0 <=? n) && (n <? 2 ^ 16)
  then Ok [n / 2 ^ 8 mod 256; n mod 256]
  else Raise StructError.

(** One call of [send_command] made by [get_history]: the address and the
    length that went into the frame, and the frame. *)
Record request : Type := mkRequest {
  req_address : Z;
  req_length : Z;
  req_frame : bytes
}.

(** The body of [for i in range(1, num_of_runs + 1)], over the remaining
    values of [i]; [log] collects the requests made so far.  A reply that is
    an error text cannot be added to [record]: [TypeError]. *)
Fixpoint read_blocks (p : serial_port) (data_length : Z) (blocks : list Z)
    (log : list request) (record : bytes) : result (list request * bytes) :=
  match blocks with
  | [] => Ok (log, record)
  | i :: blocks' =>
      let address := data_length * i in
      ad4 <- pack_I address ;;
      let ad := skipn 1 ad4 in
      dl <- pack_H data_length ;;
      let frame := ascii_bytes "<SPIR" ++ ad ++ dl ++ ascii_bytes ">>" in
      match send_command p frame (Z.to_nat data_length) with
      | RBytes data_page =>
          read_blocks p data_length blocks'
                      (log ++ [mkRequest address data_length frame])
                      (record ++ data_page)
      | RStr _ => Raise TypeError
      end
  end.

(** [range(1, n + 1)]. *)
Definition range1 (n : Z) : list Z :=
  map Z.of_nat (seq 1 (Z.to_nat n)).

(** [get_history]: the requests it makes and the bytes it writes to the file.
    [int(DEFAULT_FLASH_SIZE / data_length)] truncates towards zero. *)
Definition get_history (p : serial_port) (data_length : Z)
  : result (list request * bytes) :=
  if data_length =? 0 then Raise ZeroDivisionError
  else
    let num_of_runs := Z.quot DEFAULT_FLASH_SIZE data_length in
    read_blocks p data_length (range1 num_of_runs) [] [].

(** The frame and the request that [get_history] builds for block [i] when
    both numbers fit their fields. *)
Definition frame_of (address data_length : Z) : bytes :=
  ascii_bytes "<SPIR"
  ++ [address / 2 ^ 16 mod 256; address / 2 ^ 8 mod 256; address mod 256]
  ++ [data_length / 2 ^ 8 mod 256; data_length mod 256]
  ++ ascii_bytes ">>".

Definition request_of (data_length i : Z) : request :=
  mkRequest (data_length * i) data_length (frame_of (data_length * i) data_length).

(** A device that answers every command with 4096 zero bytes. *)
Definition zero_port : serial_port :=
  mkPort true (fun _ => repeat 0 4096).

(** A device whose answer to every command stops after three bytes. *)
Definition short_port : serial_port :=
  mkPort true (fun _ => [0; 0; 7]).

(** Three bytes [0xFF] at position [k] of the image. *)
Definition sentinel_at (record : bytes) (k : nat) : Prop :=
  nth_error record k = Some 255
  /\ nth_error record (k + 1) = Some 255
  /\ nth_error record (k + 2) = Some 255.

(** [reaches record s0 s]: started in [s0], the loop is at the head of a pass
    in state [s]. *)
Inductive reaches (record : bytes) (s0 : state) : state -> Prop :=
| reaches_start : reaches record s0 s0
| reaches_pass (s s' : state) :
    reaches record s0 s ->
    (i s < length record)%nat ->
    body record s = Running s' ->
    reaches record s0 s'.

(** [sum] of a list of integers. *)
Definition sum_Z (l : list Z) : Z := fold_right Z.add 0 l.

(** A finished row of the data frame: timestamp, mode text, the total, and
    the sixty samples the total is the sum of. *)
Definition log_row (row : list pyval) : Prop :=
  exists t txt samples,
    row = VTime t :: VStr txt :: VInt (sum_Z samples) :: map VInt samples
    /\ length samples = 60%nat.

(** The rows written to the CSV file, when one is written. *)
Definition csv_rows (f : option final) : option (list (list pyval)) :=
  match f with
  | Some (CsvAtSentinel df) => Some df
  | Some (CsvAtEnd df) => Some df
  | _ => None
  end.

(** A timestamp record with tag 0: 2023-10-07 17:19:34, saved every second. *)
Definition timestamp_record : bytes :=
  [0x55; 0xaa; 0; 23; 10; 7; 17; 19; 34; 0x55; 0xaa; 1].

(** A tag-5 record followed by the same timestamp record. *)
Definition tag5_record : bytes :=
  [0x55; 0xaa; 5; 1] ++ timestamp_record.

(** The timestamp record, a sample 0, then a byte [0x55] that is followed by
    7 and not by [0xAA]. *)
Definition literal_image : bytes :=
  timestamp_record ++ [0; 0x55; 7; 0; 0; 0].

(** The state at the head of the second pass over [literal_image]: the
    first pass has read the timestamp record and the sample at offset 12. *)
Definition after_timestamp : state :=
  mkState 13 0
          [VTime (mkDatetime 2023 10 7 17 19 34); VStr "Every Second"; VInt 0]
          1 true []
          (Some (mkDatetime 2023 10 7 17 19 34)) (Some 1)
          (Some "Every Second"%string) (Some true).

(** The timestamp record, a sample 0, then the wide-value record for 300. *)
Definition wide_image : bytes :=
  timestamp_record ++ [0; 0x55; 0xaa; 1; 1; 0x2c; 0; 0; 0].

(** What holds of the state at the head of every pass: the data frame holds
    finished rows only, and the list under construction is empty until the
    first timestamp record and starts with a timestamp and a mode text from
    then on. *)
Definition well_formed (s : state) : Prop :=
  Forall log_row (parsed_df s)
  /\ (if store_data s
      then exists t txt rest, lst s = VTime t :: VStr txt :: rest
      else lst s = []).

(** Two one-minute windows of sixty samples, each after a tag-5 record, and
    then unused flash. *)
Definition two_minutes_image : bytes :=
  tag5_record ++ repeat 1 60 ++ tag5_record ++ repeat 2 60 ++ [255; 255; 255].

(** A timestamp record, one sample, and then unused flash. *)
Definition partial_image : bytes :=
  timestamp_record ++ [7; 255; 255; 255].

(** Three bytes [0xFF] at the very start, and behind them a timestamp record,
    sixty samples and unused flash. *)
Definition late_image : bytes :=
  [255; 255; 255] ++ timestamp_record ++ repeat 1 60 ++ [255; 255; 255].

(** The state after the first pass over [partial_image]: one sample is on
    the list, and the cursor is on the three bytes [0xFF]. *)
Definition after_partial : state :=
  mkState 13 0
          [VTime (mkDatetime 2023 10 7 17 19 34); VStr "Every Second"; VInt 7]
          1 true []
          (Some (mkDatetime 2023 10 7 17 19 34)) (Some 1)
          (Some "Every Second"%string) (Some true).

(** ** The clock commands: [read_datetime] and [set_datetime] *)

(** [f'{n:02d}']: the decimal text, with a zero in front when it is one
    character long. *)
Definition fmt_02d (n : Z) : string :=
  let s := str_of_int n in
  if (String.length s <? 2)%nat then ("0" ++ s)%string else s.

(** [struct.unpack(">7B", raw)]: seven bytes exactly, else [struct.error];
    the error text that [send_command] may return is no bytes object. *)
Definition unpack_7B (raw : reply) : result (Z * Z * Z * Z * Z * Z * Z) :=
  match raw with
  | RStr _ => Raise TypeError
  | RBytes [a; b; c; d; e; f; g] => Ok (a, b, c, d, e, f, g)
  | RBytes _ => Raise StructError
  end.

(** The part of the two messages that shows the clock:
    [{day:02d}-{month:02d}-{year:02d}  {hour:02d}:{minute:02d}:{second:02d}]. *)
Definition clock_text (year month day hour minute second : Z) : string :=
  (fmt_02d day ++ "-" ++ fmt_02d month ++ "-" ++ fmt_02d year ++ "  "
   ++ fmt_02d hour ++ ":" ++ fmt_02d minute ++ ":" ++ fmt_02d second)%string.

Definition read_datetime (p : serial_port) : result string :=
  '(year, month, day, hour, minute, second, dummy) <-
     unpack_7B (send_command p (ascii_bytes "<GETDATETIME>>") 7) ;;
  Ok ("device date and time are: "
      ++ clock_text year month day hour minute second)%string.

(** [struct.pack('>BBBBBB', ...)]: every value must fit a byte. *)
Definition pack_6B (values : list Z) : result bytes :=
  if forallb (fun x => (0 <=? x) && (x <=? 255)) values
  then Ok values
  else Raise StructError.

(** The frame [set_datetime] hands to [send_command], for the system time
    [today]; [%y] is the year without the century. *)
Definition set_datetime_frame (today : datetime) : result bytes :=
  cmd <- pack_6B [dt_year today mod 100; dt_month today; dt_day today;
                  dt_hour today; dt_minute today; dt_second today] ;;
  Ok (ascii_bytes "<SETDATETIME" ++ cmd ++ ascii_bytes ">>").

(** [set_datetime], with the system time [today] that [datetime.now()]
    returns as an argument.  What [send_command] returns is dropped. *)
Definition set_datetime (p : serial_port) (today : datetime) : result string :=
  frame <- set_datetime_frame today ;;
  let _ := send_command p frame 1 in
  Ok ("local date and time are:  "
      ++ clock_text (dt_year today mod 100) (dt_month today) (dt_day today)
                    (dt_hour today) (dt_minute today) (dt_second today))%string.

(** A date and a time of day that exist, as every [datetime] object is. *)
Definition valid_datetime (t : datetime) : Prop :=
  1 <= dt_year t <= 9999
  /\ 1 <= dt_month t <= 12
  /\ 1 <= dt_day t <= days_in_month (dt_year t) (dt_month t)
  /\ 0 <= dt_hour t <= 23
  /\ 0 <= dt_minute t <= 59
  /\ 0 <= dt_second t <= 59.

(** ** [hexlify] *)

(** Upper-case hexadecimal digits. *)
Fixpoint hex_upper (u : Hexadecimal.uint) : string :=
  match u with
  | Hexadecimal.Nil => ""
  | Hexadecimal.D0 u' => String "0"%char (hex_upper u')
  | Hexadecimal.D1 u' => String "1"%char (hex_upper u')
  | Hexadecimal.D2 u' => String "2"%char (hex_upper u')
  | Hexadecimal.D3 u' => String "3"%char (hex_upper u')
  | Hexadecimal.D4 u' => String "4"%char (hex_upper u')
  | Hexadecimal.D5 u' => String "5"%char (hex_upper u')
  | Hexadecimal.D6 u' => String "6"%char (hex_upper u')
  | Hexadecimal.D7 u' => String "7"%char (hex_upper u')
  | Hexadecimal.D8 u' => String "8"%char (hex_upper u')
  | Hexadecimal.D9 u' => String "9"%char (hex_upper u')
  | Hexadecimal.Da u' => String "A"%char (hex_upper u')
  | Hexadecimal.Db u' => String "B"%char (hex_upper u')
  | Hexadecimal.Dc u' => String "C"%char (hex_upper u')
  | Hexadecimal.Dd u' => String "D"%char (hex_upper u')
  | Hexadecimal.De u' => String "E"%char (hex_upper u')
  | Hexadecimal.Df u' => String "F"%char (hex_upper u')
  end.

(** [f'{c:0>2X}']: upper-case hexadecimal, filled with zeros on the left to
    two characters. *)
Definition format_02X (c : Z) : string :=
  let digits := hex_upper (N.to_hex_uint (Z.abs_N c)) in
  let s := if c <? 0 then ("-" ++ digits)%string else digits in
  if (String.length s <? 2)%nat then ("0" ++ s)%string else s.

Definition hexlify (data : bytes) : string :=
  String.concat " " (map format_02X data).

(** Reading a dump back: two hexadecimal digits per byte, one character
    between two bytes.  Not in the source; it states what a dump holds. *)
Definition hex_value (c : Ascii.ascii) : option Z :=
  let n := Z.of_nat (Ascii.nat_of_ascii c) in
  if (48 <=? n) && (n <=? 57) then Some (n - 48)
  else if (65 <=? n) && (n <=? 70) then Some (n - 55)
  else None.

Fixpoint unhexlify (s : string) : option bytes :=
  match s with
  | EmptyString => Some []
  | String h (String l rest) =>
      match hex_value h, hex_value l with
      | Some a, Some b =>
          match rest with
          | EmptyString => Some [a * 16 + b]
          | String _ rest' =>
              match unhexlify rest' with
              | Some tl => Some (a * 16 + b :: tl)
              | None => None
              end
          end
      | _, _ => None
      end
  | String _ EmptyString => None
  end.

(** ** Images as the device writes them *)

(** One minute of history: an optional tag-5 record with its byte, the
    timestamp record, and the samples. *)
Record window : Type := mkWindow {
  w_tag5 : option Z;
  w_year : Z;
  w_month : Z;
  w_day : Z;
  w_hour : Z;
  w_minute : Z;
  w_second : Z;
  w_mode : Z;
  w_samples : list Z
}.

Definition encode_window (w : window) : bytes :=
  match w_tag5 w with
  | Some x => [0x55; 0xaa; 5; x]
  | None => []
  end
  ++ [0x55; 0xaa; 0; w_year w; w_month w; w_day w; w_hour w; w_minute w;
      w_second w; 0x55; 0xaa; w_mode w]
  ++ w_samples w.

(** The windows one after the other, then unused flash. *)
Definition history_image (ws : list window) : bytes :=
  flat_map encode_window ws ++ [255; 255; 255].

(** A sample that is neither the first byte of a marker nor [0xFF]. *)
Definition plain_sample (b : Z) : Prop := b <> 0x55 /\ b <> 255.

(** [row] is the row a window stands for: its timestamp, the text of its save
    mode, the sum of its sixty samples, and the samples. *)
Definition window_row (w : window) (row : list pyval) : Prop :=
  exists t txt interval,
    strptime (w_year w) (w_month w) (w_day w) (w_hour w) (w_minute w)
             (w_second w) = Ok t
    /\ get_save_type (w_mode w) = Ok (txt, interval)
    /\ length (w_samples w) = 60%nat
    /\ Forall plain_sample (w_samples w)
    /\ row = VTime t :: VStr txt :: VInt (sum_Z (w_samples w))
             :: map VInt (w_samples w).

(** A byte is printed as two hexadecimal digits that give it back. *)
Definition two_digits_ok (c : Z) : bool :=
  match format_02X c with
  | String h (String l EmptyString) =>
      match hex_value h, hex_value l with
      | Some a, Some b => a * 16 + b =? c
      | _, _ => false
      end
  | _ => false
  end.

(** A port that [test_serial] cannot open. *)
Definition dead_port : serial_port :=
  mkPort false (fun _ => []).

(** A device that answers every command with the clock 2023-10-07 17:19:34
    and a seventh byte. *)
Definition clock_port : serial_port :=
  mkPort true (fun _ => [23; 10; 7; 17; 19; 34; 170]).

(** A device that never answers. *)
Definition silent_port : serial_port :=
  mkPort true (fun _ => []).

(** The state after as many passes as [samples] has elements, each pass over
    one byte that is stored as a sample. *)
Definition after_samples (s : state) (samples : list Z) : state :=
  set_i (set_cps (set_lst s (lst s ++ map VInt samples))
                 (cps s + length samples))
        (i s + length samples).

(** Two windows: one without and one with a tag-5 record. *)
Definition example_windows : list window :=
  [ mkWindow None 23 10 7 17 19 34 1 (repeat 1 60);
    mkWindow (Some 1) 23 10 7 17 20 34 2 (repeat 2 60) ].

Definition example_rows : list (list pyval) :=
  [ VTime (mkDatetime 2023 10 7 17 19 34) :: VStr "Every Second" :: VInt 60
      :: map VInt (repeat 1 60);
    VTime (mkDatetime 2023 10 7 17 20 34) :: VStr "Every Minute" :: VInt 120
      :: map VInt (repeat 2 60) ].

(** A marker with tag 0 or tag 5 at position [k] of the image. *)
Definition timestamp_marker_at (record : bytes) (k : nat) : Prop :=
  nth_error record k = Some 0x55
  /\ nth_error record (k + 1) = Some 0xaa
  /\ (nth_error record (k + 2) = Some 0 \/ nth_error record (k + 2) = Some 5).

(** Two states that agree on the locals of [bin_to_csv], and on the globals
    as soon as a timestamp record has set them. *)
Definition same_run (s1 s2 : state) : Prop :=
  i s1 = i s2
  /\ counter_per_minute s1 = counter_per_minute s2
  /\ lst s1 = lst s2
  /\ cps s1 = cps s2
  /\ store_data s1 = store_data s2
  /\ parsed_df s1 = parsed_df s2
  /\ (if store_data s1
      then record_time s1 = record_time s2
           /\ save_interval s1 = save_interval s2
           /\ save_txt s1 = save_txt s2
      else lst s1 = []).

(** Both runs go on, in states that agree; or both return the same rows; or
    both raise. *)
Definition same_outcome (o1 o2 : outcome) : Prop :=
  match o1, o2 with
  | Running a, Running b => same_run a b
  | Returned d1, Returned d2 => d1 = d2
  | Raised _, Raised _ => True
  | _, _ => False
  end.

Definition same_result (r1 r2 : result state) : Prop :=
  match r1, r2 with
  | Ok a, Ok b => same_run a b
  | Raise _, Raise _ => True
  | _, _ => False
  end.

(** A value of a row that, when it is a timestamp, is an existing date. *)
Definition valid_pyval (v : pyval) : Prop :=
  match v with
  | VTime t => valid_datetime t
  | _ => True
  end.

(** All timestamps that the state holds are existing dates. *)
Definition timed (s : state) : Prop :=
  Forall valid_pyval (lst s)
  /\ Forall (Forall valid_pyval) (parsed_df s)
  /\ (store_data s = true ->
      exists t, record_time s = Some t /\ valid_datetime t).

(** The number of the minute a timestamp lies in, counted from the start of
    year 1 in the calendar that [datetime] uses. *)
Definition days_before_year (y : Z) : Z :=
  365 * (y - 1) + (y - 1) / 4 - (y - 1) / 100 + (y - 1) / 400.

Definition days_before_month (y m : Z) : Z :=
  sum_Z (map (days_in_month y) (map Z.of_nat (seq 1 (Z.to_nat (m - 1))))).

Definition minute_number (t : datetime) : Z :=
  ((days_before_year (dt_year t) + days_before_month (dt_year t) (dt_month t)
    + (dt_day t - 1)) * 24 + dt_hour t) * 60 + dt_minute t.

(** The rows that the minutes after one timestamp record stand for: the
    first row carries the timestamp [t] of the record, each further row the
    timestamp of the row before it plus one minute. *)
Inductive minute_rows (txt : string)
  : datetime -> list (list Z) -> list (list pyval) -> Prop :=
| minute_rows_nil (t : datetime) : minute_rows txt t [] []
| minute_rows_cons (t t' : datetime) (m : list Z) (ms : list (list Z))
    (rows : list (list pyval)) :
    length m = 60%nat ->
    Forall plain_sample m ->
    add_minute t = Ok t' ->
    minute_rows txt t' ms rows ->
    minute_rows txt t (m :: ms)
      ((VTime t :: VStr txt :: VInt (sum_Z m) :: map VInt m) :: rows).

(** [rows] are the rows of a window whose samples make up one minute or
    more. *)
Definition window_rows (w : window) (rows : list (list pyval)) : Prop :=
  exists t txt interval minutes,
    strptime (w_year w) (w_month w) (w_day w) (w_hour w) (w_minute w)
             (w_second w) = Ok t
    /\ get_save_type (w_mode w) = Ok (txt, interval)
    /\ w_samples w = concat minutes
    /\ minutes <> []
    /\ minute_rows txt t minutes rows.

(** A timestamp record followed by three minutes of samples, as the device
    writes them, and the three rows it stands for. *)
Definition three_minutes_window : window :=
  mkWindow None 23 12 31 23 58 34 1 (repeat 1 60 ++ repeat 2 60 ++ repeat 3 60).

Definition three_minutes_rows : list (list pyval) :=
  [ VTime (mkDatetime 2023 12 31 23 58 34) :: VStr "Every Second" :: VInt 60
      :: map VInt (repeat 1 60);
    VTime (mkDatetime 2023 12 31 23 59 34) :: VStr "Every Second" :: VInt 120
      :: map VInt (repeat 2 60);
    VTime (mkDatetime 2024 1 1 0 0 34) :: VStr "Every Second" :: VInt 180
      :: map VInt (repeat 3 60) ].

(** * Properties *)

(** ** [get_save_type] *)

(** C9: [get_save_type] maps the codes 0 to 5 to their texts and to the
    intervals 0, 1, 60, 3600, 1 and 60 seconds, and for every other code it
    raises ([SystemExit], from [sys.exit(1)]) instead of returning a default. *)
Theorem get_save_type_codes :
  map get_save_type [0; 1; 2; 3; 4; 5] =
    [ Ok ("history saving deactivated"%string, 0);
      Ok ("Every Second"%string, 1);
      Ok ("Every Minute"%string, 60);
      Ok ("Every Hour"%string, 3600);
      Ok ("Every Second if exceeding threshold"%string, 1);
      Ok ("Every Minute if exceeding threshold"%string, 60) ]
  /\ forall c : Z, c < 0 \/ 5 < c -> get_save_type c = Raise (SystemExit 1).
Proof.
  split; [reflexivity|].
  intros c Hc. unfold get_save_type.
  repeat match goal with
         | |- context [?a =? ?b] => destruct (Z.eqb_spec a b); [lia|]
         end.
  reflexivity.
Qed.

Lemma get_save_type_codes_witness :
  (255 < 0 \/ 5 < 255) /\ get_save_type 255 = Raise (SystemExit 1).
Proof.
  split; [right; lia|].
  apply (proj2 get_save_type_codes 255). right; lia.
Defined.

(** ** The command layer *)

Lemma send_command_ok (p : serial_port) (command : bytes) (b_len : nat) :
  port_ok p = true ->
  send_command p command b_len = RBytes (firstn b_len (device p command)).
Proof. intros H. unfold send_command. now rewrite H. Qed.

(** C6, as the code has it: [send_command] hands back whatever was read, of
    any length up to [b_len], and [get_cpm] decodes the bytes at offsets 2
    and 3 of it without comparing its length with 4; a reply of three bytes
    or more is decoded, and the result is the big-endian value of the bytes
    found there. *)
Theorem get_cpm_decodes_any_length (p : serial_port) (raw : bytes) :
  port_ok p = true ->
  raw = firstn 4 (device p (ascii_bytes "<GETCPM>>")) ->
  (3 <= length raw)%nat ->
  send_command p (ascii_bytes "<GETCPM>>") 4 = RBytes raw
  /\ exists cpm,
       int_of_hex (slice raw 2 4) = Ok cpm
       /\ get_cpm p = Ok ("Current CPM are: " ++ str_of_int cpm)%string.
Proof.
  intros Hok Hraw Hlen.
  assert (Hs : send_command p (ascii_bytes "<GETCPM>>") 4 = RBytes raw)
    by (rewrite Hraw; now apply send_command_ok).
  split; [exact Hs|].
  unfold get_cpm. rewrite Hs.
  destruct raw as [|a [|b [|c rest]]]; simpl in Hlen; try lia.
  unfold slice. cbn [skipn Nat.sub firstn].
  destruct rest as [|d rest']; cbn [firstn int_of_hex];
    eexists; (split; [reflexivity|reflexivity]).
Qed.

Lemma get_cpm_decodes_any_length_witness :
  get_cpm short_port = Ok "Current CPM are: 7"%string.
Proof.
  destruct (get_cpm_decodes_any_length short_port [0; 0; 7]
              eq_refl eq_refl (le_n 3)) as [_ [cpm [Hc Hg]]].
  rewrite Hg. injection Hc as <-. reflexivity.
Defined.

(** C6, counterexample: the device answers [<GETCPM>>] with three bytes where
    four are expected; no error is raised and a count is returned. *)
Lemma get_cpm_short_reply_accepted :
  send_command short_port (ascii_bytes "<GETCPM>>") 4 = RBytes [0; 0; 7]
  /\ length [0; 0; 7] <> 4%nat
  /\ get_cpm short_port = Ok "Current CPM are: 7"%string.
Proof. repeat split. discriminate. Qed.

(** ** The flash reader *)

Lemma pack_I_ok (n : Z) :
  0 <= n < 2 ^ 32 ->
  pack_I n = Ok [n / 2 ^ 24 mod 256; n / 2 ^ 16 mod 256; n / 2 ^ 8 mod 256; n mod 256].
Proof.
  intros [H0 H1]. unfold pack_I.
  apply Z.leb_le in H0. apply Z.ltb_lt in H1. now rewrite H0, H1.
Qed.

Lemma pack_H_ok (n : Z) :
  0 <= n < 2 ^ 16 ->
  pack_H n = Ok [n / 2 ^ 8 mod 256; n mod 256].
Proof.
  intros [H0 H1]. unfold pack_H.
  apply Z.leb_le in H0. apply Z.ltb_lt in H1. now rewrite H0, H1.
Qed.

(** With a working port and a device that always sends at least
    [data_length] bytes, the loop makes one request per block, in order, and
    every block adds [data_length] bytes to [record]. *)
Lemma read_blocks_full (p : serial_port) (data_length : Z) :
  port_ok p = true ->
  0 <= data_length < 2 ^ 16 ->
  (forall cmd, data_length <= Z.of_nat (length (device p cmd))) ->
  forall blocks log record,
    Forall (fun i => 0 <= data_length * i < 2 ^ 32) blocks ->
    exists record',
      read_blocks p data_length blocks log record
        = Ok (log ++ map (request_of data_length) blocks, record')
      /\ Z.of_nat (length record')
         = Z.of_nat (length record) + data_length * Z.of_nat (length blocks).
Proof.
  intros Hok Hdl Hfull blocks.
  induction blocks as [|b blocks IH]; intros log record Hfit.
  - exists record. cbn [read_blocks map length]. rewrite app_nil_r. split; [reflexivity|lia].
  - inversion Hfit as [|? ? Hb Hrest]; subst.
    cbn [read_blocks]. rewrite (pack_I_ok _ Hb). cbn [bind skipn].
    rewrite (pack_H_ok _ Hdl). cbn [bind].
    rewrite (send_command_ok _ _ _ Hok).
    match goal with
    | |- context [read_blocks p data_length blocks ?l ?r] =>
        destruct (IH l r Hrest) as [record' [Hrun Hlen]]
    end.
    exists record'. split.
    + rewrite Hrun. rewrite <- app_assoc. reflexivity.
    + rewrite Hlen. rewrite length_app, length_firstn.
      specialize (Hfull (frame_of (data_length * b) data_length)).
      unfold frame_of in Hfull. cbn [length]. lia.
Qed.

Lemma range1_bound (n : Z) (c : Z) :
  0 <= c -> Forall (fun i => 0 <= c * i <= c * n) (range1 n).
Proof.
  intros Hc. unfold range1. apply Forall_forall. intros x Hx.
  apply in_map_iff in Hx. destruct Hx as [k [<- Hk]].
  apply in_seq in Hk. nia.
Qed.

(** The default call [get_history(4096)] on a working port with a device that
    sends full blocks. *)
Lemma get_history_default (p : serial_port) :
  port_ok p = true ->
  (forall cmd, 4096 <= Z.of_nat (length (device p cmd))) ->
  exists record,
    get_history p 4096 = Ok (map (request_of 4096) (range1 256), record)
    /\ Z.of_nat (length record) = DEFAULT_FLASH_SIZE.
Proof.
  intros Hok Hfull.
  destruct (read_blocks_full p 4096 Hok ltac:(lia) Hfull (range1 256) [] [])
    as [record [Hrun Hlen]].
  - eapply Forall_impl; [|apply (range1_bound 256 4096); lia].
    cbv beta. intros a Ha. lia.
  - exists record. split.
    + unfold get_history. cbn [Z.eqb]. exact Hrun.
    + rewrite Hlen. unfold range1. rewrite length_map, length_seq. reflexivity.
Qed.


Lemma zero_port_full :
  forall cmd, 4096 <= Z.of_nat (length (device zero_port cmd)).
Proof. intros cmd. cbn [device zero_port]. rewrite repeat_length. lia. Qed.

(** C8, the code at the default call: the request for block 256 is at address
    1,048,576, which is the flash size itself, and it ends 4096 bytes past the
    end of the flash; so the last request breaks both bounds. *)
Theorem get_history_last_request_out_of_flash :
  exists log record r,
    get_history zero_port 4096 = Ok (log, record)
    /\ nth_error log 255 = Some r
    /\ req_address r = 1048576
    /\ req_length r = 4096
    /\ ~ req_address r < DEFAULT_FLASH_SIZE
    /\ ~ req_address r + req_length r <= DEFAULT_FLASH_SIZE.
Proof.
  destruct (get_history_default zero_port eq_refl zero_port_full)
    as [record [Hrun _]].
  exists (map (request_of 4096) (range1 256)), record, (request_of 4096 256).
  split; [exact Hrun|].
  split; [reflexivity|].
  cbn [request_of req_address req_length]. unfold DEFAULT_FLASH_SIZE.
  repeat split; lia.
Qed.

(** ** The history decoder *)

(** Case analysis on every [bind], [if] and [match] of a hypothesis that says
    how a phase ended. *)
Ltac split_run H :=
  unfold bind in H;
  repeat match type of H with
         | context [match ?x with _ => _ end] =>
             lazymatch x with
             | context [match _ with _ => _ end] => fail
             | _ => destruct x eqn:?
             end
         end;
  try discriminate H.

Lemma getitem_Some {A : Type} (l : list A) (k : nat) (x : A) :
  getitem l k = Ok x <-> nth_error l k = Some x.
Proof.
  unfold getitem. destruct (nth_error l k); split; intros H;
    try discriminate; injection H as ->; reflexivity.
Qed.

Lemma getitem_lt {A : Type} (l : list A) (k : nat) (x : A) :
  getitem l k = Ok x -> (k < length l)%nat.
Proof.
  intros H. apply getitem_Some in H.
  apply nth_error_Some. congruence.
Qed.

Lemma getitem_out {A : Type} (l : list A) (k : nat) :
  (length l <= k)%nat -> getitem l k = Raise IndexError.
Proof.
  intros H. unfold getitem.
  now rewrite (proj2 (nth_error_None l k) H).
Qed.

(** *** Every pass moves the cursor forward *)

Lemma marker_phase_i (record : bytes) (s s' : state) :
  marker_phase record s = Ok s' -> (i s <= i s')%nat.
Proof.
  intros H. unfold marker_phase in H. split_run H;
    injection H as <-; cbn; subst;
    repeat match goal with
           | E : Ok _ = Ok _ |- _ => injection E as <-
           end; cbn; lia.
Qed.

Lemma sample_phase_i (record : bytes) (s s' : state) :
  sample_phase record s = Ok s' -> i s' = (i s + 1)%nat.
Proof.
  intros H. unfold sample_phase in H. split_run H;
    injection H as <-; cbn;
    repeat match goal with
           | E : Ok _ = Ok _ |- _ => injection E as <-
           end; reflexivity.
Qed.

Lemma row_phase_i (s s' : state) :
  row_phase s = Ok s' -> i s' = i s.
Proof.
  intros H. unfold row_phase in H. split_run H;
    injection H as <-; reflexivity.
Qed.

Lemma phases_i (record : bytes) (s s' : state) :
  phases record s = Ok s' -> (i s < i s')%nat.
Proof.
  intros H. unfold phases, bind in H.
  destruct (marker_phase record s) as [s1|] eqn:H1; [|discriminate].
  destruct (sample_phase record s1) as [s2|] eqn:H2; [|discriminate].
  apply marker_phase_i in H1. apply sample_phase_i in H2. apply row_phase_i in H.
  lia.
Qed.

Lemma eod_check_lt (record : bytes) (s : state) (b : bool) :
  eod_check record s = Ok b -> (i s < length record)%nat.
Proof.
  intros H. unfold eod_check, bind in H.
  destruct (getitem record (i s)) eqn:E; [|discriminate].
  now apply getitem_lt in E.
Qed.

Lemma eod_check_true (record : bytes) (s : state) :
  eod_check record s = Ok true <-> sentinel_at record (i s).
Proof.
  unfold eod_check, sentinel_at, bind. split.
  - intros H. split_run H.
    injection H as H.
    repeat match goal with
           | E : getitem _ _ = Ok _ |- _ => apply getitem_Some in E
           | E : (_ =? _) = true |- _ => apply Z.eqb_eq in E; subst
           end.
    auto.
  - intros (Ha & Hb & Hc).
    apply getitem_Some in Ha, Hb, Hc. rewrite Ha. cbn. rewrite Hb. cbn.
    rewrite Hc. reflexivity.
Qed.

Lemma body_running (record : bytes) (s s' : state) :
  body record s = Running s' ->
  phases record s = Ok s' /\ (i s < i s' < length record)%nat.
Proof.
  unfold body. intros H.
  destruct (phases record s) as [s1|] eqn:Hp; [|discriminate].
  destruct (eod_check record s1) as [[|]|] eqn:He; try discriminate.
  injection H as ->. split; [reflexivity|].
  apply phases_i in Hp. apply eod_check_lt in He. lia.
Qed.

Lemma body_returned (record : bytes) (s : state) (df : list (list pyval)) :
  body record s = Returned df ->
  exists s', phases record s = Ok s' /\ sentinel_at record (i s')
             /\ df = parsed_df s'.
Proof.
  unfold body. intros H.
  destruct (phases record s) as [s1|] eqn:Hp; [|discriminate].
  destruct (eod_check record s1) as [[|]|] eqn:He; try discriminate.
  injection H as <-. exists s1. split; [reflexivity|].
  split; [now apply eod_check_true|reflexivity].
Qed.

(** *** The loop ends, and how *)

Lemma scan_total (record : bytes) :
  forall fuel s, (length record - i s <= fuel)%nat -> scan fuel record s <> None.
Proof.
  induction fuel as [|fuel IH]; intros s Hf; cbn [scan].
  - destruct (Nat.ltb_spec (i s) (length record)); [lia|discriminate].
  - destruct (Nat.ltb_spec (i s) (length record)); [|discriminate].
    destruct (body record s) as [s'| |] eqn:Hb; try discriminate.
    apply IH. apply body_running in Hb. lia.
Qed.

(** [bin_to_csv] always ends: with a CSV file or with an exception. *)
Lemma bin_to_csv_total (record : bytes) (g : globals) :
  exists f, bin_to_csv record g = Some f.
Proof.
  destruct (bin_to_csv record g) as [f|] eqn:E; [now exists f|].
  exfalso. revert E. apply scan_total. cbn. lia.
Qed.

(** A loop that is inside the image never leaves it by the [while] test: the
    pass that would move [i] to the end reads [record[i]] there. *)
Lemma scan_never_at_end (record : bytes) :
  forall fuel s df,
    (i s < length record)%nat -> scan fuel record s <> Some (CsvAtEnd df).
Proof.
  induction fuel as [|fuel IH]; intros s df Hi; cbn [scan];
    destruct (Nat.ltb_spec (i s) (length record)); try lia; try discriminate.
  destruct (body record s) as [s'| |] eqn:Hb; try discriminate.
  apply IH. apply body_running in Hb. lia.
Qed.

Lemma scan_sentinel (record : bytes) :
  forall fuel s df,
    scan fuel record s = Some (CsvAtSentinel df) -> exists k, sentinel_at record k.
Proof.
  induction fuel as [|fuel IH]; intros s df; cbn [scan];
    destruct (Nat.ltb_spec (i s) (length record)); try discriminate.
  destruct (body record s) as [s'| |] eqn:Hb; try discriminate.
  - apply IH.
  - intros _. apply body_returned in Hb. destruct Hb as (s' & _ & Hs & _).
    now exists (i s').
Qed.

(** C10, the code on images without the end mark: whatever the globals, a
    non-empty image in which no three consecutive bytes are [0xFF] is never
    decoded to the end; [bin_to_csv] ends with an uncaught exception and
    writes no CSV file. *)
Theorem bin_to_csv_faults_without_sentinel (record : bytes) (g : globals) :
  record <> [] ->
  (forall k, ~ sentinel_at record k) ->
  exists e, bin_to_csv record g = Some (Uncaught e).
Proof.
  intros Hne Hno.
  destruct (bin_to_csv_total record g) as [f Hf]. rewrite Hf.
  destruct f as [df|df|e].
  - apply scan_sentinel in Hf. destruct Hf as [k Hk]. now apply Hno in Hk.
  - exfalso. revert Hf. apply scan_never_at_end. cbn.
    destruct record; [congruence|cbn; lia].
  - now exists e.
Qed.

Lemma bin_to_csv_faults_without_sentinel_witness :
  exists e, bin_to_csv [0] fresh_globals = Some (Uncaught e).
Proof.
  apply bin_to_csv_faults_without_sentinel.
  - discriminate.
  - intros k [H _]. destruct k as [|[|k]]; discriminate H.
Defined.

(** C10, the smallest failing image: one byte.  The pass over byte 0 ends
    with the test [record[1] == 255], past the end of the image. *)
Lemma bin_to_csv_one_byte :
  bin_to_csv [0] fresh_globals = Some (Uncaught IndexError).
Proof. reflexivity. Qed.

(** *** A byte [0x55] that does not start a marker *)

Lemma literal_image_first_pass :
  body literal_image (init_state fresh_globals) = Running after_timestamp.
Proof. reflexivity. Qed.

(** C1, what the code does with a byte [0x55] at the cursor whose successor
    [b] is not [0xAA], once a timestamp has been seen: the pass appends the
    cursor position (not the byte) and then the successor [b] as a second
    sample, so the cursor moves by 2 and the counter grows by 2. *)
Theorem literal_0x55_pass (record : bytes) (s : state) (b : Z) :
  nth_error record (i s) = Some 0x55 ->
  nth_error record (i s + 1) = Some b ->
  b <> 0xaa ->
  store_data s = true ->
  (cps s + 2 <> 60)%nat ->
  exists s',
    phases record s = Ok s'
    /\ i s' = (i s + 2)%nat
    /\ cps s' = (cps s + 2)%nat
    /\ lst s' = lst s ++ [VInt (Z.of_nat (i s)); VInt b]
    /\ parsed_df s' = parsed_df s.
Proof.
  intros H0 H1 Hb Hstore Hcps.
  apply getitem_Some in H0, H1. apply Z.eqb_neq in Hb.
  unfold phases, marker_phase.
  rewrite H0. cbn [bind Z.eqb Pos.eqb]. rewrite H1. cbn [bind]. rewrite Hb.
  rewrite Hstore. cbn [bind].
  unfold sample_phase. cbn [store_data set_cps set_i set_lst i lst cps
    counter_per_minute parsed_df record_time save_interval save_txt new_timestamp].
  rewrite Hstore, H1. cbn [bind].
  unfold row_phase. cbn [store_data set_cps set_i set_lst i lst cps
    counter_per_minute parsed_df record_time save_interval save_txt new_timestamp].
  destruct (Nat.eqb_spec (cps s + 1 + 1) 60) as [E|_]; [lia|].
  eexists. split; [reflexivity|]. cbn.
  repeat split; try lia. now rewrite <- app_assoc.
Qed.

Lemma literal_0x55_pass_witness :
  exists s',
    phases literal_image after_timestamp = Ok s'
    /\ i s' = 15%nat
    /\ cps s' = 3%nat
    /\ lst s' = lst after_timestamp ++ [VInt 13; VInt 7]
    /\ parsed_df s' = [].
Proof.
  apply (literal_0x55_pass literal_image after_timestamp 7);
    [reflexivity | reflexivity | discriminate | reflexivity | cbn; lia].
Defined.

(** *** Wide-value records *)

(** C2, what the code does at a wide-value record [0x55 0xAA 0x01 msb lsb]:
    the pass computes the time of the sample as [record_time + ...], which
    raises [NameError] while no timestamp has been read and [TypeError]
    afterwards; nothing is appended and the pass does not end. *)
Theorem wide_value_record_raises (record : bytes) (s : state) (msb lsb : Z) :
  nth_error record (i s) = Some 0x55 ->
  nth_error record (i s + 1) = Some 0xaa ->
  nth_error record (i s + 2) = Some 1 ->
  nth_error record (i s + 3) = Some msb ->
  nth_error record (i s + 4) = Some lsb ->
  let e := match record_time s, save_interval s with
           | Some _, Some _ => TypeError
           | _, _ => NameError
           end in
  marker_phase record s = Raise e /\ body record s = Raised e.
Proof.
  intros H0 H1 H2 H3 H4 e.
  apply getitem_Some in H0, H1, H2, H3, H4.
  assert (Hm : marker_phase record s = Raise e).
  { unfold marker_phase.
    rewrite H0. cbn [bind Z.eqb Pos.eqb]. rewrite H1. cbn [bind Z.eqb Pos.eqb].
    rewrite H2. cbn [bind Z.eqb Pos.eqb orb]. rewrite H3, H4. cbn [bind].
    subst e. destruct (record_time s), (save_interval s); reflexivity. }
  split; [exact Hm|].
  unfold body, phases. rewrite Hm. reflexivity.
Qed.

Lemma wide_value_record_raises_witness :
  marker_phase wide_image after_timestamp = Raise TypeError
  /\ body wide_image after_timestamp = Raised TypeError.
Proof.
  exact (wide_value_record_raises wide_image after_timestamp 1 0x2c
           eq_refl eq_refl eq_refl eq_refl eq_refl).
Defined.

(** The record for 300 after a timestamp record, and on its own in a fresh
    module: no CSV file either way. *)
Lemma wide_image_run :
  bin_to_csv wide_image fresh_globals = Some (Uncaught TypeError)
  /\ bin_to_csv [0x55; 0xaa; 1; 1; 0x2c] fresh_globals = Some (Uncaught NameError).
Proof. split; reflexivity. Qed.

(** *** Timestamp records *)

Lemma getitem_slice {A : Type} (l : list A) (a n j : nat) :
  (j < n)%nat -> getitem (slice l a (a + n)) j = getitem l (a + j).
Proof.
  intros Hj. unfold getitem, slice.
  rewrite nth_error_firstn, nth_error_skipn.
  replace (a + n - a)%nat with n by lia.
  destruct (Nat.ltb_spec j n); [reflexivity|lia].
Qed.

(** [create_record_time] on the ten bytes from position [k] reads the six
    fields at [k + 3] to [k + 8]. *)
Lemma create_record_time_at (record : bytes) (k : nat) (y mo d h mi se : Z) :
  nth_error record (k + 3) = Some y ->
  nth_error record (k + 4) = Some mo ->
  nth_error record (k + 5) = Some d ->
  nth_error record (k + 6) = Some h ->
  nth_error record (k + 7) = Some mi ->
  nth_error record (k + 8) = Some se ->
  create_record_time (slice record k (k + 10)) = strptime y mo d h mi se.
Proof.
  intros Hy Hmo Hd Hh Hmi Hse.
  apply getitem_Some in Hy, Hmo, Hd, Hh, Hmi, Hse.
  unfold create_record_time.
  rewrite !getitem_slice by lia.
  rewrite Hy, Hmo, Hd, Hh, Hmi, Hse. reflexivity.
Qed.

(** C4, as the code has it.  At a marker with tag 0 the six fields are the
    bytes at offsets 3 to 8 from the marker start, the save mode is the byte
    at offset 11, and the cursor moves to offset 12.  At a marker with tag 5
    the cursor first moves 4 bytes on, so everything lies 4 bytes further:
    fields at offsets 7 to 12, save mode at offset 15, cursor to offset 16;
    the sample list and the counter are emptied.  In both cases the timestamp
    and the mode text are put on the list and kept as the current ones. *)
Theorem timestamp_record_offsets
    (record : bytes) (s : state) (tag y mo d h mi se mode interval : Z)
    (t : datetime) (txt : string) :
  let m := i s in
  let off := if tag =? 5 then 4%nat else 0%nat in
  nth_error record m = Some 0x55 ->
  nth_error record (m + 1) = Some 0xaa ->
  nth_error record (m + 2) = Some tag ->
  tag = 0 \/ tag = 5 ->
  nth_error record (m + off + 3) = Some y ->
  nth_error record (m + off + 4) = Some mo ->
  nth_error record (m + off + 5) = Some d ->
  nth_error record (m + off + 6) = Some h ->
  nth_error record (m + off + 7) = Some mi ->
  nth_error record (m + off + 8) = Some se ->
  strptime y mo d h mi se = Ok t ->
  nth_error record (m + off + 11) = Some mode ->
  get_save_type mode = Ok (txt, interval) ->
  exists s',
    marker_phase record s = Ok s'
    /\ i s' = (m + off + 12)%nat
    /\ record_time s' = Some t
    /\ save_txt s' = Some txt
    /\ save_interval s' = Some interval
    /\ store_data s' = true
    /\ parsed_df s' = parsed_df s
    /\ (tag = 5 -> cps s' = 0%nat /\ lst s' = [VTime t; VStr txt])
    /\ (tag = 0 ->
        cps s' = cps s
        /\ lst s' = (if (length (lst s) =? 2)%nat then [] else lst s)
                    ++ [VTime t; VStr txt]).
Proof.
  intros m off H0 H1 H2 Htag Hy Hmo Hd Hh Hmi Hse Ht Hmode Hsave.
  pose proof (create_record_time_at record (m + off) _ _ _ _ _ _
                Hy Hmo Hd Hh Hmi Hse) as Hcrt.
  rewrite Ht in Hcrt.
  apply getitem_Some in H0, H1, H2, Hmode.
  unfold marker_phase. fold m.
  rewrite H0. cbn [bind Z.eqb Pos.eqb]. rewrite H1. cbn [bind Z.eqb Pos.eqb].
  rewrite H2. cbn [bind].
  destruct Htag as [-> | ->]; cbn [Z.eqb Pos.eqb orb] in *; subst off.
  - replace (m + 0)%nat with m in * by lia.
    rewrite Hcrt. cbn [bind set_new_timestamp set_record_time set_lst
      set_store_data i lst cps counter_per_minute store_data parsed_df
      record_time save_interval save_txt new_timestamp].
    destruct (length (lst s) =? 2)%nat;
      cbn [bind load set_new_timestamp set_record_time set_lst set_store_data
        i lst cps counter_per_minute store_data parsed_df record_time
        save_interval save_txt new_timestamp];
      fold m; rewrite Hmode; cbn [bind]; rewrite Hsave; cbn [bind];
      eexists; (split; [reflexivity|]); cbn;
      repeat split; try discriminate; try lia; auto;
      now rewrite <- app_assoc.
  - cbn [set_i i]. fold m.
    rewrite Hcrt. cbn [bind].
    cbn [bind load set_new_timestamp set_record_time set_lst set_store_data
        set_cps set_i length Nat.eqb
        i lst cps counter_per_minute store_data parsed_df record_time
        save_interval save_txt new_timestamp app].
    rewrite Hmode; cbn [bind]; rewrite Hsave; cbn [bind].
    eexists; (split; [reflexivity|]); cbn.
    repeat split; try discriminate; try lia; auto.
Qed.

Lemma timestamp_record_offsets_witness :
  exists s',
    marker_phase tag5_record (init_state fresh_globals) = Ok s'
    /\ i s' = 16%nat
    /\ record_time s' = Some (mkDatetime 2023 10 7 17 19 34)
    /\ save_txt s' = Some "Every Second"%string
    /\ save_interval s' = Some 1
    /\ store_data s' = true
    /\ parsed_df s' = []
    /\ (5 = 5 -> cps s' = 0%nat
                 /\ lst s' = [VTime (mkDatetime 2023 10 7 17 19 34);
                              VStr "Every Second"])
    /\ (5 = 0 ->
        cps s' = 0%nat
        /\ lst s' = [] ++ [VTime (mkDatetime 2023 10 7 17 19 34);
                           VStr "Every Second"]).
Proof.
  exact (timestamp_record_offsets tag5_record (init_state fresh_globals)
           5 23 10 7 17 19 34 1 1 (mkDatetime 2023 10 7 17 19 34) "Every Second"
           eq_refl eq_refl eq_refl (or_intror eq_refl)
           eq_refl eq_refl eq_refl eq_refl eq_refl eq_refl eq_refl
           eq_refl eq_refl).
Defined.

(** C4, counterexample: a tag-5 record at offset 0.  The cursor ends at 16,
    not at 12; the timestamp comes from the bytes at offsets 7 to 12 (the
    bytes at offsets 4 to 9 are not a date); the save mode is the byte at
    offset 15 (the byte at offset 11 is 19, which is no save mode). *)
Lemma tag5_record_offsets_differ :
  exists s',
    marker_phase tag5_record (init_state fresh_globals) = Ok s'
    /\ i s' = 16%nat
    /\ i s' <> (0 + 12)%nat
    /\ record_time s' = Some (mkDatetime 2023 10 7 17 19 34)
    /\ create_record_time (slice tag5_record 1 11) = Raise ValueError
    /\ save_txt s' = Some "Every Second"%string
    /\ nth_error tag5_record 15 = Some 1
    /\ nth_error tag5_record 11 = Some 19
    /\ get_save_type 19 = Raise (SystemExit 1).
Proof.
  eexists. split; [reflexivity|]. cbn. repeat split. discriminate.
Qed.

(** *** Rows *)

Lemma py_sum_from_ints (l : list pyval) :
  forall acc total,
    py_sum_from acc l = Ok total ->
    exists samples, l = map VInt samples /\ total = acc + sum_Z samples.
Proof.
  induction l as [|v l IH]; intros acc total H; cbn [py_sum_from] in H.
  - injection H as <-. exists []. unfold sum_Z. cbn. split; [reflexivity|lia].
  - destruct v as [t|txt|n]; try discriminate.
    apply IH in H. destruct H as [samples [-> ->]].
    exists (n :: samples). unfold sum_Z. cbn. split; [reflexivity|lia].
Qed.

(** Closes a goal on the shape of [lst] from the shape it had before. *)
Ltac shape_of_lst s Hlst :=
  try match goal with
      | E : store_data s = _ |- _ => rewrite E in *
      end;
  try (destruct (store_data s));
  first [ assumption
        | discriminate
        | destruct Hlst as (?t & ?txt & ?rest & ->); cbn;
          do 3 eexists; reflexivity
        | rewrite Hlst; cbn; first [reflexivity | do 3 eexists; reflexivity]
        | do 3 eexists; reflexivity ].

Lemma marker_phase_well_formed (record : bytes) (s s' : state) :
  marker_phase record s = Ok s' -> well_formed s -> well_formed s'.
Proof.
  intros H [Hdf Hlst]. unfold marker_phase in H. split_run H;
    injection H as <-;
    repeat match goal with
           | E : Ok _ = Ok _ |- _ => injection E as <-
           end; unfold well_formed; cbn in *;
    (split; [assumption|]); shape_of_lst s Hlst.
Qed.

Lemma sample_phase_well_formed (record : bytes) (s s' : state) :
  sample_phase record s = Ok s' -> well_formed s -> well_formed s'.
Proof.
  intros H [Hdf Hlst]. unfold sample_phase in H. split_run H;
    injection H as <-;
    repeat match goal with
           | E : Ok _ = Ok _ |- _ => injection E as <-
           end; unfold well_formed; cbn in *;
    (split; [assumption|]); shape_of_lst s Hlst.
Qed.

(** What the block [if cps == 60] does when it runs to its end. *)
Lemma row_phase_emit (s s' : state) :
  row_phase s = Ok s' ->
  cps s = 60%nat ->
  exists a b samples t t' txt,
    lst s = a :: b :: map VInt samples
    /\ length samples = 60%nat
    /\ parsed_df s' = parsed_df s ++ [a :: b :: VInt (sum_Z samples) :: map VInt samples]
    /\ cps s' = 0%nat
    /\ lst s' = [VTime t'; VStr txt]
    /\ record_time s = Some t
    /\ add_minute t = Ok t'
    /\ record_time s' = Some t'
    /\ save_txt s = Some txt
    /\ store_data s' = store_data s.
Proof.
  intros H Hcps. unfold row_phase in H. rewrite Hcps in H. cbn [Nat.eqb] in H.
  unfold bind in H.
  destruct (py_sum (slice (lst s) 2 62)) as [total|] eqn:Hsum; [|discriminate].
  destruct (df_append (parsed_df s) (py_insert 2 (VInt total) (lst s)))
    as [df|] eqn:Hdf; [|discriminate].
  unfold df_append, n_columns in Hdf.
  destruct (Nat.eqb_spec (length (py_insert 2 (VInt total) (lst s))) 63)
    as [Hlen|]; [|discriminate].
  injection Hdf as <-.
  destruct (lst s) as [|a [|b rest]] eqn:Hl; try discriminate Hlen.
  unfold py_insert in Hlen. cbn [firstn skipn app length] in Hlen.
  assert (Hrest : length rest = 60%nat) by lia.
  unfold slice in Hsum. cbn [skipn] in Hsum.
  change (62 - 2)%nat with 60%nat in Hsum.
  rewrite <- Hrest, firstn_all in Hsum.
  apply py_sum_from_ints in Hsum. destruct Hsum as [samples [-> ->]].
  rewrite length_map in Hrest.
  cbn in H.
  destruct (record_time s) as [t|] eqn:Ht; cbn in H; [|discriminate].
  destruct (add_minute t) as [t'|] eqn:Hadd; cbn in H; [|discriminate].
  destruct (save_txt s) as [txt|] eqn:Htxt; cbn in H; [|discriminate].
  injection H as <-.
  exists a, b, samples, t, t', txt. cbn.
  repeat split; auto.
Qed.

Lemma row_phase_skip (s s' : state) :
  row_phase s = Ok s' -> cps s <> 60%nat -> s' = s.
Proof.
  intros H Hcps. unfold row_phase in H.
  destruct (Nat.eqb_spec (cps s) 60); [contradiction|].
  now injection H.
Qed.

Lemma row_phase_well_formed (s s' : state) :
  row_phase s = Ok s' -> well_formed s -> well_formed s'.
Proof.
  intros H [Hdf Hlst].
  destruct (Nat.eq_dec (cps s) 60) as [Hcps|Hcps].
  - destruct (row_phase_emit s s' H Hcps)
      as (a & b & samples & t & t' & txt & Hl & Hn & Hdf' & _ & Hl' & _ & _ & _ & _ & Hst).
    unfold well_formed. rewrite Hdf', Hl', Hst.
    destruct (store_data s).
    + split; [|do 3 eexists; reflexivity].
      apply Forall_app. split; [assumption|].
      constructor; [|constructor].
      destruct Hlst as (t0 & txt0 & rest & Hrest).
      rewrite Hrest in Hl. injection Hl as <- <- _.
      exists t0, txt0, samples. split; [reflexivity|assumption].
    + rewrite Hlst in Hl. discriminate.
  - apply row_phase_skip in H; [|assumption]. subst s'. split; assumption.
Qed.

Lemma marker_phase_parsed_df (record : bytes) (s s' : state) :
  marker_phase record s = Ok s' -> parsed_df s' = parsed_df s.
Proof.
  intros H. unfold marker_phase in H. split_run H;
    injection H as <-;
    repeat match goal with
           | E : Ok _ = Ok _ |- _ => injection E as <-
           end; reflexivity.
Qed.

Lemma sample_phase_parsed_df (record : bytes) (s s' : state) :
  sample_phase record s = Ok s' -> parsed_df s' = parsed_df s.
Proof.
  intros H. unfold sample_phase in H. split_run H;
    injection H as <-;
    repeat match goal with
           | E : Ok _ = Ok _ |- _ => injection E as <-
           end; reflexivity.
Qed.

Lemma phases_well_formed (record : bytes) (s s' : state) :
  phases record s = Ok s' -> well_formed s -> well_formed s'.
Proof.
  intros H Hwf. unfold phases, bind in H.
  destruct (marker_phase record s) as [s1|] eqn:H1; [|discriminate].
  destruct (sample_phase record s1) as [s2|] eqn:H2; [|discriminate].
  eauto using marker_phase_well_formed, sample_phase_well_formed,
    row_phase_well_formed.
Qed.

Lemma init_state_well_formed (g : globals) : well_formed (init_state g).
Proof. split; [constructor|reflexivity]. Qed.

Lemma reaches_well_formed (record : bytes) (s0 s : state) :
  reaches record s0 s -> well_formed s0 -> well_formed s.
Proof.
  induction 1 as [|s s' _ IH _ Hb]; intros Hwf; [assumption|].
  apply body_running in Hb. destruct Hb as [Hp _].
  eapply phases_well_formed; eauto.
Qed.

Lemma scan_rows (record : bytes) :
  forall fuel s df,
    well_formed s ->
    csv_rows (scan fuel record s) = Some df ->
    Forall log_row df.
Proof.
  induction fuel as [|fuel IH]; intros s df Hwf; cbn [scan];
    destruct (Nat.ltb_spec (i s) (length record)); cbn [csv_rows];
    try discriminate; try (intros [= <-]; apply Hwf).
  destruct (body record s) as [s'|df'|e] eqn:Hb; cbn [csv_rows];
    try discriminate.
  - apply IH. apply body_running in Hb.
    eapply phases_well_formed; [apply Hb|assumption].
  - intros [= <-]. apply body_returned in Hb.
    destruct Hb as (s' & Hp & _ & ->).
    apply (phases_well_formed _ _ _ Hp Hwf).
Qed.



(** *** The end of the data *)

Lemma scan_reaches (record : bytes) (s0 s : state) :
  reaches record s0 s ->
  forall fuel,
    (length record - i s0 <= fuel)%nat ->
    exists fuel',
      (length record - i s <= fuel')%nat
      /\ scan fuel record s0 = scan fuel' record s.
Proof.
  induction 1 as [|s s' _ IH Hlt Hb]; intros fuel Hf.
  - exists fuel. split; [assumption|reflexivity].
  - destruct (IH fuel Hf) as (fuel' & Hf' & Hscan).
    destruct fuel' as [|fuel']; [lia|].
    exists fuel'. split.
    + apply body_running in Hb. lia.
    + rewrite Hscan. cbn [scan].
      destruct (Nat.ltb_spec (i s) (length record)); [|lia].
      now rewrite Hb.
Qed.

(** C5, as the code has it: the test for three bytes [0xFF] comes at the end
    of each pass of the loop.  When a pass, started anywhere the scan gets to,
    leaves the cursor on three bytes [0xFF], [bin_to_csv] writes the CSV file
    from the rows finished so far and returns; those rows are complete rows,
    and the samples of the list under construction are not written. *)
Theorem sentinel_ends_scan (record : bytes) (g : globals) (s s' : state) :
  reaches record (init_state g) s ->
  (i s < length record)%nat ->
  phases record s = Ok s' ->
  sentinel_at record (i s') ->
  bin_to_csv record g = Some (CsvAtSentinel (parsed_df s'))
  /\ Forall log_row (parsed_df s').
Proof.
  intros Hr Hlt Hp Hs. split.
  - unfold bin_to_csv.
    destruct (scan_reaches record _ _ Hr (length record)) as (fuel & Hf & ->);
      [cbn; lia|].
    destruct fuel as [|fuel]; [lia|]. cbn [scan].
    destruct (Nat.ltb_spec (i s) (length record)); [|lia].
    unfold body. rewrite Hp.
    apply eod_check_true in Hs. now rewrite Hs.
  - apply (phases_well_formed record s s' Hp).
    apply (reaches_well_formed record _ _ Hr), init_state_well_formed.
Qed.

Lemma sentinel_ends_scan_witness :
  phases partial_image (init_state fresh_globals) = Ok after_partial
  /\ sentinel_at partial_image (i after_partial)
  /\ bin_to_csv partial_image fresh_globals
     = Some (CsvAtSentinel (parsed_df after_partial))
  /\ Forall log_row (parsed_df after_partial).
Proof.
  split; [reflexivity|]. split; [repeat split|].
  apply (sentinel_ends_scan partial_image fresh_globals
           (init_state fresh_globals) after_partial).
  - apply reaches_start.
  - cbn. lia.
  - reflexivity.
  - repeat split.
Defined.

(** C5, counterexample: the image starts with three bytes [0xFF], so they are
    at the cursor when decoding starts; decoding does not stop there, it goes
    on to the timestamp record behind them and writes a row. *)
Lemma sentinel_at_start_not_tested :
  sentinel_at late_image 0
  /\ exists row,
       bin_to_csv late_image fresh_globals = Some (CsvAtSentinel [row])
       /\ bin_to_csv late_image fresh_globals <> Some (CsvAtSentinel []).
Proof.
  split; [repeat split|].
  eexists. split; [vm_compute; reflexivity|].
  vm_compute. discriminate.
Qed.

(** *** The example images are byte strings *)

Lemma example_images_wf :
  wf_bytes literal_image /\ wf_bytes wide_image /\ wf_bytes tag5_record
  /\ wf_bytes partial_image /\ wf_bytes late_image /\ wf_bytes two_minutes_image.
Proof.
  unfold wf_bytes.
  repeat split; apply Forall_forall; intros x Hx; cbn in Hx;
    repeat (destruct Hx as [<- | Hx]; [lia|]); contradiction.
Qed.

(** * Further properties of the code *)

(** ** [get_cpm] *)

(** X1: [get_cpm] has no error path of its own.  When the port cannot be
    opened, the error text that [send_command] returns is sliced and asked
    for its [hex], which a text does not have: [AttributeError].  When the
    device sends at most two bytes, the slice [2:4] is empty and [int] of the
    empty text raises [ValueError]. *)
Theorem get_cpm_failures (p : serial_port) :
  (port_ok p = false -> get_cpm p = Raise AttributeError)
  /\ (port_ok p = true ->
      (length (device p (ascii_bytes "<GETCPM>>")) <= 2)%nat ->
      get_cpm p = Raise ValueError).
Proof.
  split.
  - intros H. unfold get_cpm, send_command. now rewrite H.
  - intros H Hlen. unfold get_cpm, send_command. rewrite H.
    destruct (device p (ascii_bytes "<GETCPM>>")) as [|a [|b [|c l]]];
      cbn in Hlen; try lia; reflexivity.
Qed.

Lemma get_cpm_failures_witness :
  get_cpm dead_port = Raise AttributeError
  /\ get_cpm silent_port = Raise ValueError.
Proof.
  split.
  - apply (proj1 (get_cpm_failures dead_port)). reflexivity.
  - apply (proj2 (get_cpm_failures silent_port)); [reflexivity|cbn; lia].
Defined.

(** X2: when the device sends four bytes or more, [get_cpm] reports the
    count [b2 * 256 + b3] made of the third and the fourth byte; the first two
    bytes and whatever follows the fourth have no influence, and for bytes
    the count lies between 0 and 65535. *)
Theorem get_cpm_count (p : serial_port) (b0 b1 b2 b3 : Z) (more : bytes) :
  port_ok p = true ->
  device p (ascii_bytes "<GETCPM>>") = b0 :: b1 :: b2 :: b3 :: more ->
  0 <= b2 <= 255 -> 0 <= b3 <= 255 ->
  get_cpm p = Ok ("Current CPM are: " ++ str_of_int (b2 * 256 + b3))%string
  /\ 0 <= b2 * 256 + b3 <= 65535.
Proof.
  intros Hok Hdev H2 H3. split; [|lia].
  unfold get_cpm, send_command. rewrite Hok, Hdev. reflexivity.
Qed.

Lemma get_cpm_count_witness :
  get_cpm (mkPort true (fun _ => [9; 9; 1; 44; 9]))
  = Ok "Current CPM are: 300"%string.
Proof.
  apply (get_cpm_count (mkPort true (fun _ => [9; 9; 1; 44; 9])) 9 9 1 44 [9]);
    [reflexivity | reflexivity | lia | lia].
Defined.

(** ** [read_datetime] and [set_datetime] *)

(** X3: [read_datetime] needs seven bytes.  When the device sends fewer,
    [struct.unpack] raises [struct.error]; when the port cannot be opened,
    the error text cannot be unpacked: [TypeError]. *)
Theorem read_datetime_failures (p : serial_port) :
  (port_ok p = false -> read_datetime p = Raise TypeError)
  /\ (port_ok p = true ->
      (length (device p (ascii_bytes "<GETDATETIME>>")) < 7)%nat ->
      read_datetime p = Raise StructError).
Proof.
  split.
  - intros H. unfold read_datetime, send_command. now rewrite H.
  - intros H Hlen. unfold read_datetime, send_command. rewrite H.
    destruct (device p (ascii_bytes "<GETDATETIME>>"))
      as [|a [|b [|c [|d [|e [|f [|g l]]]]]]]; cbn in Hlen; try lia; reflexivity.
Qed.

Lemma read_datetime_failures_witness :
  read_datetime dead_port = Raise TypeError
  /\ read_datetime short_port = Raise StructError.
Proof.
  split.
  - apply (proj1 (read_datetime_failures dead_port)). reflexivity.
  - apply (proj2 (read_datetime_failures short_port)); [reflexivity|cbn; lia].
Defined.

(** X4: when the device sends seven bytes or more, [read_datetime] shows the
    first six as year, month, day, hour, minute and second, in the order day,
    month, year, hour, minute, second; the seventh byte and whatever follows
    it have no influence. *)
Theorem read_datetime_fields
    (p : serial_port) (y mo d h mi se dummy : Z) (more : bytes) :
  port_ok p = true ->
  device p (ascii_bytes "<GETDATETIME>>")
    = y :: mo :: d :: h :: mi :: se :: dummy :: more ->
  read_datetime p
  = Ok ("device date and time are: "
        ++ fmt_02d d ++ "-" ++ fmt_02d mo ++ "-" ++ fmt_02d y ++ "  "
        ++ fmt_02d h ++ ":" ++ fmt_02d mi ++ ":" ++ fmt_02d se)%string.
Proof.
  intros Hok Hdev. unfold read_datetime, send_command. rewrite Hok, Hdev.
  reflexivity.
Qed.

Lemma read_datetime_fields_witness :
  read_datetime clock_port
  = Ok "device date and time are: 07-10-23  17:19:34"%string.
Proof.
  exact (read_datetime_fields clock_port 23 10 7 17 19 34 170 []
           eq_refl eq_refl).
Defined.

Lemma pack_6B_ok (values : list Z) :
  Forall (fun x => 0 <= x <= 255) values -> pack_6B values = Ok values.
Proof.
  intros H. unfold pack_6B.
  replace (forallb (fun x => (0 <=? x) && (x <=? 255)) values) with true;
    [reflexivity|].
  symmetry. apply forallb_forall. rewrite Forall_forall in H.
  intros x Hx. apply H in Hx. apply andb_true_iff.
  split; apply Z.leb_le; lia.
Qed.

Lemma valid_datetime_bytes (t : datetime) :
  valid_datetime t ->
  Forall (fun x => 0 <= x <= 255)
         [dt_year t mod 100; dt_month t; dt_day t;
          dt_hour t; dt_minute t; dt_second t].
Proof.
  intros (Hy & Hm & Hd & Hh & Hmi & Hs).
  assert (days_in_month (dt_year t) (dt_month t) <= 31).
  { unfold days_in_month.
    repeat match goal with
           | |- context [if ?b then _ else _] => destruct b
           end; lia. }
  pose proof (Z.mod_pos_bound (dt_year t) 100 ltac:(lia)).
  repeat constructor; lia.
Qed.


Lemma valid_2023_10_07 : valid_datetime (mkDatetime 2023 10 7 17 19 34).
Proof. unfold valid_datetime. cbn. lia. Qed.


(** X6: the clock round trip.  When the device answers [<GETDATETIME>>] with
    the six bytes that [set_datetime] put into its frame, followed by any
    seventh byte, [read_datetime] shows the same date and time as the message
    of [set_datetime] did. *)
Theorem clock_round_trip
    (p : serial_port) (today : datetime) (payload : bytes) (dummy : Z) :
  valid_datetime today ->
  set_datetime_frame today
    = Ok (ascii_bytes "<SETDATETIME" ++ payload ++ ascii_bytes ">>") ->
  port_ok p = true ->
  device p (ascii_bytes "<GETDATETIME>>") = payload ++ [dummy] ->
  exists text,
    set_datetime p today = Ok ("local date and time are:  " ++ text)%string
    /\ read_datetime p = Ok ("device date and time are: " ++ text)%string.
Proof.
  intros Hv Hframe Hok Hdev.
  pose proof (valid_datetime_bytes today Hv) as Hb.
  unfold set_datetime_frame in Hframe. rewrite (pack_6B_ok _ Hb) in Hframe.
  cbn [bind] in Hframe. injection Hframe as Hframe.
  apply (app_inv_tail (ascii_bytes ">>")
           [dt_year today mod 100; dt_month today; dt_day today;
            dt_hour today; dt_minute today; dt_second today] payload) in Hframe.
  subst payload.
  eexists. split.
  - unfold set_datetime, set_datetime_frame. rewrite (pack_6B_ok _ Hb).
    reflexivity.
  - unfold read_datetime, send_command. rewrite Hok, Hdev. reflexivity.
Qed.

Lemma clock_round_trip_witness :
  exists text,
    set_datetime clock_port (mkDatetime 2023 10 7 17 19 34)
      = Ok ("local date and time are:  " ++ text)%string
    /\ read_datetime clock_port
       = Ok ("device date and time are: " ++ text)%string.
Proof.
  exact (clock_round_trip clock_port (mkDatetime 2023 10 7 17 19 34)
           [23; 10; 7; 17; 19; 34] 170 valid_2023_10_07
           eq_refl eq_refl eq_refl).
Defined.

(** ** [hexlify] *)

Lemma format_02X_byte (c : Z) :
  0 <= c <= 255 ->
  exists h l a b,
    format_02X c = String h (String l EmptyString)
    /\ hex_value h = Some a /\ hex_value l = Some b /\ a * 16 + b = c.
Proof.
  intros Hc.
  assert (Hall : forallb two_digits_ok (map Z.of_nat (seq 0 256)) = true)
    by (vm_compute; reflexivity).
  rewrite forallb_forall in Hall.
  assert (Hok : two_digits_ok c = true).
  { apply Hall. apply in_map_iff. exists (Z.to_nat c).
    split; [lia|]. apply in_seq. lia. }
  unfold two_digits_ok in Hok.
  destruct (format_02X c) as [|h [|l [|x rest]]]; try discriminate.
  destruct (hex_value h) as [a|] eqn:Ha; try discriminate.
  destruct (hex_value l) as [b|] eqn:Hb; try discriminate.
  apply Z.eqb_eq in Hok. now exists h, l, a, b.
Qed.

(** X7: the dump of a byte string holds two upper-case hexadecimal digits
    per byte with one blank between two bytes, so it is [3 * n - 1]
    characters long for [n >= 1] bytes and empty for none, and reading the
    digits back gives the byte string: two byte strings with the same dump
    are equal. *)
Theorem hexlify_round_trip (data : bytes) :
  wf_bytes data ->
  unhexlify (hexlify data) = Some data
  /\ String.length (hexlify data) = (3 * length data - 1)%nat.
Proof.
  unfold wf_bytes, hexlify. induction 1 as [|c rest Hc Hrest IH].
  - split; reflexivity.
  - destruct (format_02X_byte c Hc) as (h & l & a & b & Hf & Ha & Hb & Hab).
    destruct rest as [|d rest'].
    + cbn [map String.concat]. rewrite Hf. cbn [unhexlify String.length].
      rewrite Ha, Hb, Hab. split; reflexivity.
    + destruct IH as [IHu IHl].
      change (String.concat " " (map format_02X (c :: d :: rest')))
        with (format_02X c ++ " " ++ String.concat " " (map format_02X (d :: rest')))%string.
      rewrite Hf.
      cbn [String.append unhexlify String.length].
      rewrite Ha, Hb, Hab, IHu, IHl. split; [reflexivity|].
      cbn [length]. lia.
Qed.

Lemma hexlify_round_trip_witness :
  unhexlify (hexlify [0; 255; 16; 171]) = Some [0; 255; 16; 171]
  /\ String.length (hexlify [0; 255; 16; 171]) = (3 * 4 - 1)%nat.
Proof.
  apply (hexlify_round_trip [0; 255; 16; 171]).
  repeat constructor; lia.
Defined.

(** ** [get_history] with any block size *)

Lemma read_blocks_any (p : serial_port) (data_length : Z) :
  port_ok p = true ->
  0 <= data_length < 2 ^ 16 ->
  forall blocks log record,
    Forall (fun i => 0 <= data_length * i < 2 ^ 32) blocks ->
    exists record',
      read_blocks p data_length blocks log record
        = Ok (log ++ map (request_of data_length) blocks, record')
      /\ Z.of_nat (length record')
         <= Z.of_nat (length record) + data_length * Z.of_nat (length blocks).
Proof.
  intros Hok Hdl blocks.
  induction blocks as [|b blocks IH]; intros log record Hfit.
  - exists record. cbn [read_blocks map length]. rewrite app_nil_r.
    split; [reflexivity|lia].
  - inversion Hfit as [|? ? Hb Hrest]; subst.
    cbn [read_blocks]. rewrite (pack_I_ok _ Hb). cbn [bind skipn].
    rewrite (pack_H_ok _ Hdl). cbn [bind].
    rewrite (send_command_ok _ _ _ Hok).
    match goal with
    | |- context [read_blocks p data_length blocks ?l ?r] =>
        destruct (IH l r Hrest) as [record' [Hrun Hlen]]
    end.
    exists record'. split.
    + rewrite Hrun. rewrite <- app_assoc. reflexivity.
    + rewrite length_app, length_firstn in Hlen. cbn [length]. lia.
Qed.

Lemma flash_blocks (data_length : Z) :
  1 <= data_length ->
  Z.quot DEFAULT_FLASH_SIZE data_length = DEFAULT_FLASH_SIZE / data_length
  /\ 0 <= DEFAULT_FLASH_SIZE / data_length
  /\ data_length * (DEFAULT_FLASH_SIZE / data_length) <= DEFAULT_FLASH_SIZE
  /\ DEFAULT_FLASH_SIZE
     < data_length * (DEFAULT_FLASH_SIZE / data_length) + data_length.
Proof.
  intros H. unfold DEFAULT_FLASH_SIZE.
  split; [apply Z.quot_div_nonneg; lia|].
  pose proof (Z.div_mod 1048576 data_length ltac:(lia)).
  pose proof (Z.mod_pos_bound 1048576 data_length ltac:(lia)).
  pose proof (Z.div_pos 1048576 data_length ltac:(lia) ltac:(lia)).
  lia.
Qed.

Lemma get_history_runs (p : serial_port) (data_length : Z) :
  port_ok p = true ->
  1 <= data_length <= 65535 ->
  exists record,
    get_history p data_length
      = Ok (map (request_of data_length)
                (range1 (DEFAULT_FLASH_SIZE / data_length)), record)
    /\ Z.of_nat (length record)
       <= data_length * (DEFAULT_FLASH_SIZE / data_length)
    /\ Z.of_nat (length record) <= DEFAULT_FLASH_SIZE.
Proof.
  intros Hok Hdl.
  destruct (flash_blocks data_length ltac:(lia)) as (Hq & Hn & Hle & _).
  destruct (read_blocks_any p data_length Hok ltac:(lia)
              (range1 (DEFAULT_FLASH_SIZE / data_length)) [] [])
    as [record [Hrun Hlen]].
  - eapply Forall_impl;
      [|apply (range1_bound (DEFAULT_FLASH_SIZE / data_length) data_length); lia].
    cbv beta. unfold DEFAULT_FLASH_SIZE in *. intros a Ha. lia.
  - exists record.
    assert (Hlen' : Z.of_nat (length record)
                    <= data_length * (DEFAULT_FLASH_SIZE / data_length)).
    { unfold range1 in Hlen. rewrite length_map, length_seq in Hlen.
      cbn [length] in Hlen. lia. }
    split; [|split; [exact Hlen'|lia]].
    unfold get_history. destruct (Z.eqb_spec data_length 0); [lia|].
    rewrite Hq. exact Hrun.
Qed.

(** *** The default call, whatever the device sends *)




(** X8: for every block size from 1 to 65535, on a working port,
    [get_history] runs to its end whatever the device sends, short or empty
    replies included: it makes [1048576 // data_length] requests, request [k]
    at the address [data_length * k] for [data_length] bytes, and writes at
    most [data_length] bytes per request, never more than the flash size in
    all. *)
Theorem get_history_any_block_size (p : serial_port) (data_length : Z) :
  port_ok p = true ->
  1 <= data_length <= 65535 ->
  exists record,
    get_history p data_length
      = Ok (map (request_of data_length)
                (range1 (DEFAULT_FLASH_SIZE / data_length)), record)
    /\ Z.of_nat (length record)
       <= data_length * (DEFAULT_FLASH_SIZE / data_length)
    /\ Z.of_nat (length record) <= DEFAULT_FLASH_SIZE.
Proof. exact (get_history_runs p data_length). Qed.

Lemma get_history_any_block_size_witness :
  exists record,
    get_history silent_port 1000
      = Ok (map (request_of 1000) (range1 (DEFAULT_FLASH_SIZE / 1000)), record)
    /\ Z.of_nat (length record) <= 1000 * (DEFAULT_FLASH_SIZE / 1000)
    /\ Z.of_nat (length record) <= DEFAULT_FLASH_SIZE.
Proof.
  apply (get_history_any_block_size silent_port 1000); [reflexivity|lia].
Defined.

Lemma range1_cons (n : Z) :
  1 <= n -> exists rest, range1 n = 1 :: rest.
Proof.
  intros H. unfold range1.
  destruct (Z.to_nat n) as [|k] eqn:E; [lia|].
  cbn [seq map]. eexists. reflexivity.
Qed.

(** X9: when the port cannot be opened, [get_history] does not reach its
    message [ERROR: No data received]: for every block size from 1 to 65535
    the first block already ends the call with [TypeError], because the error
    text of [send_command] is added to the bytes read so far. *)
Theorem get_history_dead_port (p : serial_port) (data_length : Z) :
  port_ok p = false ->
  1 <= data_length <= 65535 ->
  get_history p data_length = Raise TypeError.
Proof.
  intros Hok Hdl.
  destruct (flash_blocks data_length ltac:(lia)) as (Hq & _ & _ & Hlt).
  unfold get_history. destruct (Z.eqb_spec data_length 0); [lia|].
  rewrite Hq.
  destruct (range1_cons (DEFAULT_FLASH_SIZE / data_length)) as [rest ->].
  - unfold DEFAULT_FLASH_SIZE in *.
    assert (0 < 1048576 / data_length); [|lia].
    apply Z.div_str_pos. lia.
  - cbn [read_blocks]. rewrite pack_I_ok by lia. cbn [bind].
    rewrite pack_H_ok by lia. cbn [bind].
    unfold send_command. now rewrite Hok.
Qed.

Lemma get_history_dead_port_witness :
  get_history dead_port 4096 = Raise TypeError.
Proof.
  apply (get_history_dead_port dead_port 4096); [reflexivity|lia].
Defined.

(** X10: block sizes outside 1..65535.  Size 0 divides by zero.  A size from
    65536 to 1048576 does not fit the two length bytes of the frame:
    [struct.error] before anything is sent.  A negative size, or one above
    the flash size, gives no block at all: nothing is requested and an empty
    image is written. *)
Theorem get_history_block_size_limits (p : serial_port) (data_length : Z) :
  (data_length = 0 -> get_history p data_length = Raise ZeroDivisionError)
  /\ (65536 <= data_length <= 1048576 ->
      get_history p data_length = Raise StructError)
  /\ (data_length < 0 \/ 1048576 < data_length ->
      get_history p data_length = Ok ([], [])).
Proof.
  split; [|split].
  - intros ->. reflexivity.
  - intros Hdl.
    destruct (flash_blocks data_length ltac:(lia)) as (Hq & _ & _ & Hlt).
    unfold get_history. destruct (Z.eqb_spec data_length 0); [lia|].
    rewrite Hq.
    destruct (range1_cons (DEFAULT_FLASH_SIZE / data_length)) as [rest ->].
    + unfold DEFAULT_FLASH_SIZE in *.
      assert (0 < 1048576 / data_length); [|lia].
      apply Z.div_str_pos. lia.
    + cbn [read_blocks]. rewrite pack_I_ok by lia. cbn [bind].
      unfold pack_H.
      destruct (Z.ltb_spec data_length (2 ^ 16)); [lia|].
      now rewrite andb_false_r.
  - intros Hdl.
    unfold get_history. destruct (Z.eqb_spec data_length 0); [lia|].
    assert (Hq : Z.quot DEFAULT_FLASH_SIZE data_length <= 0).
    { unfold DEFAULT_FLASH_SIZE. destruct Hdl as [Hneg|Hbig].
      - replace data_length with (- (- data_length)) by lia.
        rewrite Z.quot_opp_r by lia.
        pose proof (Z.quot_pos 1048576 (- data_length) ltac:(lia) ltac:(lia)).
        lia.
      - rewrite Z.quot_small; lia. }
    unfold range1.
    replace (Z.to_nat (Z.quot DEFAULT_FLASH_SIZE data_length)) with 0%nat by lia.
    reflexivity.
Qed.

Lemma get_history_block_size_limits_witness :
  get_history zero_port 0 = Raise ZeroDivisionError
  /\ get_history zero_port 65536 = Raise StructError
  /\ get_history zero_port 2000000 = Ok ([], []).
Proof.
  split; [|split].
  - apply (proj1 (get_history_block_size_limits zero_port 0)). reflexivity.
  - apply (proj1 (proj2 (get_history_block_size_limits zero_port 65536))). lia.
  - apply (proj2 (proj2 (get_history_block_size_limits zero_port 2000000))).
    right. lia.
Defined.

(** More on the requests of [get_history]. *)

Lemma be3 (a : Z) :
  0 <= a < 2 ^ 24 ->
  ((0 * 256 + a / 2 ^ 16 mod 256) * 256 + a / 2 ^ 8 mod 256) * 256 + a mod 256 = a.
Proof.
  intros H. change (2 ^ 16) with 65536. change (2 ^ 8) with 256.
  change (2 ^ 24) with 16777216 in H.
  Z.div_mod_to_equations. lia.
Qed.

Lemma be2 (a : Z) :
  0 <= a < 2 ^ 16 ->
  (0 * 256 + a / 2 ^ 8 mod 256) * 256 + a mod 256 = a.
Proof.
  intros H. change (2 ^ 8) with 256. change (2 ^ 16) with 65536 in H.
  Z.div_mod_to_equations. lia.
Qed.

(** X11: every frame that [get_history] sends can be read back.  For every
    block size from 1 to 65535 each frame is 12 bytes long, starts with
    [<SPIR] and ends with [>>]; its bytes 5 to 7 are the address of the
    request, most significant byte first, and its bytes 8 and 9 the length. *)
Theorem get_history_frames (p : serial_port) (data_length : Z) :
  port_ok p = true ->
  1 <= data_length <= 65535 ->
  exists log record,
    get_history p data_length = Ok (log, record)
    /\ Forall (fun r =>
                 length (req_frame r) = 12%nat
                 /\ wf_bytes (req_frame r)
                 /\ firstn 5 (req_frame r) = ascii_bytes "<SPIR"
                 /\ skipn 10 (req_frame r) = ascii_bytes ">>"
                 /\ int_of_hex (slice (req_frame r) 5 8) = Ok (req_address r)
                 /\ int_of_hex (slice (req_frame r) 8 10) = Ok (req_length r))
              log.
Proof.
  intros Hok Hdl.
  destruct (get_history_runs p data_length Hok Hdl)
    as (record & Hrun & _).
  destruct (flash_blocks data_length ltac:(lia)) as (_ & Hn & Hle & _).
  eexists. exists record. split; [exact Hrun|].
  apply Forall_forall. intros r Hr.
  apply in_map_iff in Hr. destruct Hr as [k [<- Hk]].
  pose proof (range1_bound (DEFAULT_FLASH_SIZE / data_length) data_length
                ltac:(lia)) as Hb.
  rewrite Forall_forall in Hb. specialize (Hb k Hk).
  unfold DEFAULT_FLASH_SIZE in *.
  assert (Ha : 0 <= data_length * k < 2 ^ 24) by lia.
  unfold request_of, frame_of. cbn [req_frame req_address req_length].
  split; [reflexivity|].
  split.
  { unfold wf_bytes. cbn.
    repeat (constructor;
            [first [ lia
                   | match goal with
                     | |- 0 <= ?x mod 256 <= 255 =>
                         pose proof (Z.mod_pos_bound x 256 ltac:(lia)); lia
                     end
                   | vm_compute; split; discriminate ]|]).
    constructor. }
  split; [reflexivity|]. split; [reflexivity|].
  unfold slice. cbn. split; f_equal; [apply be3; exact Ha|apply be2; lia].
Qed.

Lemma get_history_frames_witness :
  exists log record,
    get_history zero_port 4096 = Ok (log, record)
    /\ Forall (fun r =>
                 length (req_frame r) = 12%nat
                 /\ wf_bytes (req_frame r)
                 /\ firstn 5 (req_frame r) = ascii_bytes "<SPIR"
                 /\ skipn 10 (req_frame r) = ascii_bytes ">>"
                 /\ int_of_hex (slice (req_frame r) 5 8) = Ok (req_address r)
                 /\ int_of_hex (slice (req_frame r) 8 10) = Ok (req_length r))
              log.
Proof.
  apply (get_history_frames zero_port 4096); [reflexivity|lia].
Defined.

(** X12: for every block size from 1 to 65535 the first request of
    [get_history] is at the address [data_length], not 0, and no request
    starts below it, so the first [data_length] bytes of the flash are never
    asked for; and the last request ends past the end of the flash. *)
Theorem get_history_window_shifted (p : serial_port) (data_length : Z) :
  port_ok p = true ->
  1 <= data_length <= 65535 ->
  exists log record last,
    get_history p data_length = Ok (log, record)
    /\ Forall (fun r => data_length <= req_address r) log
    /\ In last log
    /\ DEFAULT_FLASH_SIZE < req_address last + req_length last.
Proof.
  intros Hok Hdl.
  destruct (get_history_runs p data_length Hok Hdl)
    as (record & Hrun & _).
  destruct (flash_blocks data_length ltac:(lia)) as (_ & Hn & Hle & Hlt).
  assert (Hpos : 1 <= DEFAULT_FLASH_SIZE / data_length).
  { unfold DEFAULT_FLASH_SIZE in *.
    assert (0 < 1048576 / data_length); [|lia].
    apply Z.div_str_pos. lia. }
  eexists. exists record,
    (request_of data_length (DEFAULT_FLASH_SIZE / data_length)).
  split; [exact Hrun|]. split; [|split].
  - apply Forall_forall. intros r Hr.
    apply in_map_iff in Hr. destruct Hr as [k [<- Hk]].
    unfold range1 in Hk. apply in_map_iff in Hk. destruct Hk as [n [<- Hn']].
    apply in_seq in Hn'. cbn [request_of req_address]. nia.
  - apply in_map. unfold range1. apply in_map_iff.
    exists (Z.to_nat (DEFAULT_FLASH_SIZE / data_length)).
    split; [lia|]. apply in_seq. lia.
  - cbn [request_of req_address req_length]. lia.
Qed.

Lemma get_history_window_shifted_witness :
  exists log record last,
    get_history silent_port 1000 = Ok (log, record)
    /\ Forall (fun r => 1000 <= req_address r) log
    /\ In last log
    /\ DEFAULT_FLASH_SIZE < req_address last + req_length last.
Proof.
  apply (get_history_window_shifted silent_port 1000); [reflexivity|lia].
Defined.

(** ** More on the decoder *)

(** *** The input behind the cursor *)

Lemma getitem_skipn {A : Type} (l : list A) (n k : nat) :
  getitem l (n + k) = getitem (skipn n l) k.
Proof. unfold getitem. now rewrite nth_error_skipn. Qed.

Lemma getitem_here {A : Type} (l : list A) (n : nat) (x : A) (rest : list A) :
  skipn n l = x :: rest -> getitem l n = Ok x.
Proof.
  intros H. rewrite <- (Nat.add_0_r n), getitem_skipn, H. reflexivity.
Qed.

Lemma skipn_next {A : Type} (l : list A) (n k : nat) (pre rest : list A) :
  skipn n l = pre ++ rest -> length pre = k -> skipn (n + k) l = rest.
Proof.
  intros H <-. rewrite Nat.add_comm, <- skipn_skipn, H.
  now rewrite skipn_app, skipn_all, Nat.sub_diag.
Qed.

Lemma skipn_lt {A : Type} (l : list A) (n : nat) (x : A) (rest : list A) :
  skipn n l = x :: rest -> (n < length l)%nat.
Proof.
  intros H. destruct (Nat.lt_ge_cases n (length l)) as [|Hge]; [assumption|].
  rewrite (skipn_all2 l Hge) in H. discriminate.
Qed.

Lemma eod_check_other (record : bytes) (s : state) (b : Z) (rest : bytes) :
  skipn (i s) record = b :: rest -> b <> 255 -> eod_check record s = Ok false.
Proof.
  intros H Hb. unfold eod_check. rewrite (getitem_here _ _ _ _ H). cbn [bind].
  apply Z.eqb_neq in Hb. now rewrite Hb.
Qed.

Lemma sentinel_at_skipn (record : bytes) (n : nat) (rest : bytes) :
  skipn n record = 255 :: 255 :: 255 :: rest -> sentinel_at record n.
Proof.
  intros H. unfold sentinel_at.
  rewrite <- !getitem_Some, !getitem_skipn, H.
  rewrite <- (Nat.add_0_r n) at 1. rewrite getitem_skipn, H.
  repeat split.
Qed.

(** *** One pass over a stored byte *)

Lemma marker_phase_other (record : bytes) (s : state) (b : Z) :
  getitem record (i s) = Ok b -> b <> 0x55 -> marker_phase record s = Ok s.
Proof.
  intros H Hb. unfold marker_phase. rewrite H. cbn [bind].
  apply Z.eqb_neq in Hb. now rewrite Hb.
Qed.

Lemma sample_pass (record : bytes) (s : state) (b : Z) (rest : bytes) :
  skipn (i s) record = b :: rest ->
  b <> 0x55 ->
  store_data s = true ->
  (cps s + 1 <> 60)%nat ->
  phases record s = Ok (after_samples s [b]).
Proof.
  intros H Hb Hstore Hcps.
  pose proof (getitem_here _ _ _ _ H) as Hget.
  unfold phases. rewrite (marker_phase_other record s b Hget Hb). cbn [bind].
  unfold sample_phase. rewrite Hstore, Hget. cbn [bind].
  unfold row_phase. cbn [cps set_i set_cps set_lst].
  destruct (Nat.eqb_spec (cps s + 1) 60); [contradiction|].
  reflexivity.
Qed.

Lemma after_samples_nil (s : state) : after_samples s [] = s.
Proof.
  unfold after_samples. cbn [map length].
  rewrite app_nil_r, !Nat.add_0_r. now destruct s.
Qed.

Lemma after_samples_cons (s : state) (b : Z) (samples : list Z) :
  after_samples (after_samples s [b]) samples = after_samples s (b :: samples).
Proof.
  unfold after_samples. cbn [map length i cps lst set_i set_cps set_lst
    counter_per_minute store_data parsed_df record_time save_interval save_txt
    new_timestamp].
  rewrite <- app_assoc.
  replace (cps s + 1 + length samples)%nat with (cps s + S (length samples))%nat by lia.
  replace (i s + 1 + length samples)%nat with (i s + S (length samples))%nat by lia.
  reflexivity.
Qed.

(** A run of plain samples, none of which fills the row. *)
Lemma samples_run (record : bytes) (s0 : state) :
  forall samples s next rest,
    skipn (i s) record = samples ++ next :: rest ->
    Forall plain_sample samples ->
    next <> 255 ->
    store_data s = true ->
    (cps s + length samples < 60)%nat ->
    reaches record s0 s ->
    reaches record s0 (after_samples s samples).
Proof.
  induction samples as [|b samples IH]; intros s next rest Hin Hplain Hnext Hstore Hcps Hr.
  - now rewrite after_samples_nil.
  - inversion Hplain as [|? ? [Hb55 Hbff] Hplain']; subst.
    cbn [length] in Hcps.
    assert (Hp : phases record s = Ok (after_samples s [b]))
      by (apply (sample_pass record s b (samples ++ next :: rest)); auto; lia).
    assert (Hi : skipn (i (after_samples s [b])) record = samples ++ next :: rest).
    { cbn [after_samples i set_i length].
      apply (skipn_next record (i s) 1 [b]); [exact Hin|reflexivity]. }
    assert (Hbody : body record s = Running (after_samples s [b])).
    { unfold body. rewrite Hp.
      destruct samples as [|b' samples'].
      - now rewrite (eod_check_other _ _ next rest Hi Hnext).
      - inversion Hplain' as [|? ? [_ Hb'] _]; subst.
        now rewrite (eod_check_other _ _ b' _ Hi Hb'). }
    rewrite <- after_samples_cons.
    apply (IH _ next rest); auto.
    + cbn. lia.
    + eapply reaches_pass; [exact Hr| |exact Hbody].
      apply (skipn_lt _ _ _ _ Hin).
Qed.

(** *** One pass over a timestamp record *)

Lemma marker_phase_tag0
    (record : bytes) (s : state) (y mo d h mi se mode interval : Z)
    (t : datetime) (txt : string) :
  nth_error record (i s) = Some 0x55 ->
  nth_error record (i s + 1) = Some 0xaa ->
  nth_error record (i s + 2) = Some 0 ->
  nth_error record (i s + 3) = Some y ->
  nth_error record (i s + 4) = Some mo ->
  nth_error record (i s + 5) = Some d ->
  nth_error record (i s + 6) = Some h ->
  nth_error record (i s + 7) = Some mi ->
  nth_error record (i s + 8) = Some se ->
  strptime y mo d h mi se = Ok t ->
  nth_error record (i s + 11) = Some mode ->
  get_save_type mode = Ok (txt, interval) ->
  lst s = [] \/ length (lst s) = 2%nat ->
  marker_phase record s
  = Ok (mkState (i s + 12) (counter_per_minute s) [VTime t; VStr txt] (cps s)
                true (parsed_df s) (Some t) (Some interval) (Some txt)
                (Some true)).
Proof.
  intros H0 H1 H2 Hy Hmo Hd Hh Hmi Hse Ht Hmode Hsave Hlst.
  pose proof (create_record_time_at record (i s) _ _ _ _ _ _
                Hy Hmo Hd Hh Hmi Hse) as Hcrt.
  rewrite Ht in Hcrt.
  apply getitem_Some in H0, H1, H2, Hmode.
  unfold marker_phase.
  rewrite H0. cbn [bind Z.eqb Pos.eqb]. rewrite H1. cbn [bind Z.eqb Pos.eqb].
  rewrite H2. cbn [bind Z.eqb Pos.eqb orb].
  rewrite Hcrt. cbn [bind set_new_timestamp set_record_time lst].
  assert (Hl : (if (length (lst s) =? 2)%nat then [] else lst s) = []).
  { destruct Hlst as [-> | ->]; reflexivity. }
  destruct (length (lst s) =? 2)%nat; cbn in Hl |- *;
    rewrite ?Hl, Hmode; cbn [bind]; rewrite Hsave; cbn; reflexivity.
Qed.

Lemma marker_phase_tag5
    (record : bytes) (s : state) (y mo d h mi se mode interval : Z)
    (t : datetime) (txt : string) :
  nth_error record (i s) = Some 0x55 ->
  nth_error record (i s + 1) = Some 0xaa ->
  nth_error record (i s + 2) = Some 5 ->
  nth_error record (i s + 4 + 3) = Some y ->
  nth_error record (i s + 4 + 4) = Some mo ->
  nth_error record (i s + 4 + 5) = Some d ->
  nth_error record (i s + 4 + 6) = Some h ->
  nth_error record (i s + 4 + 7) = Some mi ->
  nth_error record (i s + 4 + 8) = Some se ->
  strptime y mo d h mi se = Ok t ->
  nth_error record (i s + 4 + 11) = Some mode ->
  get_save_type mode = Ok (txt, interval) ->
  marker_phase record s
  = Ok (mkState (i s + 4 + 12) (counter_per_minute s) [VTime t; VStr txt] 0
                true (parsed_df s) (Some t) (Some interval) (Some txt)
                (Some true)).
Proof.
  intros H0 H1 H2 Hy Hmo Hd Hh Hmi Hse Ht Hmode Hsave.
  pose proof (create_record_time_at record (i s + 4) _ _ _ _ _ _
                Hy Hmo Hd Hh Hmi Hse) as Hcrt.
  rewrite Ht in Hcrt.
  apply getitem_Some in H0, H1, H2, Hmode.
  unfold marker_phase.
  rewrite H0. cbn [bind Z.eqb Pos.eqb]. rewrite H1. cbn [bind Z.eqb Pos.eqb].
  rewrite H2. cbn [bind Z.eqb Pos.eqb orb set_i i].
  rewrite Hcrt. cbn. rewrite Hmode. cbn [bind]. rewrite Hsave. cbn. reflexivity.
Qed.

Lemma nth_error_behind {A : Type} (l : list A) (n k : nat) (rest : list A) (x : A) :
  skipn n l = rest -> nth_error rest k = Some x -> nth_error l (n + k) = Some x.
Proof. intros <-. now rewrite nth_error_skipn. Qed.

(** Reads a byte at an offset from the cursor off the known input. *)
Ltac behind Hin :=
  match goal with
  | |- nth_error _ (?n + ?a + ?b) = _ =>
      replace (n + a + b)%nat with (n + (a + b))%nat by lia;
      apply (nth_error_behind _ _ _ _ _ Hin); reflexivity
  | |- nth_error _ (?n + ?k) = _ =>
      apply (nth_error_behind _ _ _ _ _ Hin); reflexivity
  | |- nth_error _ ?n = _ =>
      rewrite <- (Nat.add_0_r n);
      apply (nth_error_behind _ _ _ _ _ Hin); reflexivity
  end.

(** The first pass over a window: the marker block reads the timestamp
    record, and the block after it stores the first sample. *)
Lemma window_head_pass (record : bytes) (s : state) (w : window)
    (t : datetime) (txt : string) (interval b0 : Z) (rest : bytes) :
  skipn (i s) record
    = match w_tag5 w with Some x => [0x55; 0xaa; 5; x] | None => [] end
      ++ [0x55; 0xaa; 0; w_year w; w_month w; w_day w; w_hour w; w_minute w;
          w_second w; 0x55; 0xaa; w_mode w] ++ b0 :: rest ->
  strptime (w_year w) (w_month w) (w_day w) (w_hour w) (w_minute w)
           (w_second w) = Ok t ->
  get_save_type (w_mode w) = Ok (txt, interval) ->
  cps s = 0%nat ->
  lst s = [] \/ length (lst s) = 2%nat ->
  exists s',
    phases record s = Ok s'
    /\ skipn (i s') record = rest
    /\ lst s' = [VTime t; VStr txt; VInt b0]
    /\ cps s' = 1%nat
    /\ store_data s' = true
    /\ parsed_df s' = parsed_df s
    /\ record_time s' = Some t
    /\ save_txt s' = Some txt.
Proof.
  intros Hin Ht Hsave Hcps Hlst.
  destruct (w_tag5 w) as [x|]; cbn [app] in Hin.
  - assert (Hm : marker_phase record s
                 = Ok (mkState (i s + 4 + 12) (counter_per_minute s)
                               [VTime t; VStr txt] 0 true (parsed_df s)
                               (Some t) (Some interval) (Some txt) (Some true))).
    { apply (marker_phase_tag5 record s (w_year w) (w_month w) (w_day w)
               (w_hour w) (w_minute w) (w_second w) (w_mode w)); auto;
        behind Hin. }
    unfold phases. rewrite Hm. cbn [bind].
    unfold sample_phase. cbn [store_data i].
    replace (i s + 4 + 12)%nat with (i s + 16)%nat by lia.
    rewrite getitem_skipn, Hin. cbn [getitem nth_error bind].
    unfold row_phase. cbn.
    eexists. split; [reflexivity|]. cbn.
    split; [|repeat split].
    replace (i s + 16 + 1)%nat with (i s + 17)%nat by lia.
    rewrite Nat.add_comm, <- skipn_skipn, Hin. reflexivity.
  - assert (Hm : marker_phase record s
                 = Ok (mkState (i s + 12) (counter_per_minute s)
                               [VTime t; VStr txt] (cps s) true (parsed_df s)
                               (Some t) (Some interval) (Some txt) (Some true))).
    { apply (marker_phase_tag0 record s (w_year w) (w_month w) (w_day w)
               (w_hour w) (w_minute w) (w_second w) (w_mode w)); auto;
        behind Hin. }
    unfold phases. rewrite Hm. cbn [bind].
    unfold sample_phase. cbn [store_data i].
    rewrite getitem_skipn, Hin. cbn [getitem nth_error bind].
    unfold row_phase. rewrite Hcps. cbn.
    eexists. split; [reflexivity|]. cbn.
    split; [|repeat split].
    replace (i s + 12 + 1)%nat with (i s + 13)%nat by lia.
    rewrite Nat.add_comm, <- skipn_skipn, Hin. reflexivity.
Qed.

(** *** The pass that fills a row *)

Lemma py_sum_from_map (samples : list Z) :
  forall acc, py_sum_from acc (map VInt samples) = Ok (acc + sum_Z samples).
Proof.
  induction samples as [|b samples IH]; intros acc; cbn [map py_sum_from].
  - unfold sum_Z. cbn. now rewrite Z.add_0_r.
  - rewrite IH. unfold sum_Z. cbn. f_equal. lia.
Qed.

Lemma add_minute_ok (t : datetime) :
  dt_year t < 9999 -> exists t', add_minute t = Ok t'.
Proof.
  intros H. unfold add_minute.
  repeat match goal with
         | |- context [if ?b then _ else _] => destruct b eqn:?
         end; try (eexists; reflexivity).
  apply Z.ltb_ge in Heqb3. lia.
Qed.

Lemma strptime_year (y mo d h mi se : Z) (t : datetime) :
  strptime y mo d h mi se = Ok t -> 2000 <= dt_year t <= 2099.
Proof.
  unfold strptime. intros H.
  match type of H with
  | (if ?c then _ else _) = _ => destruct c eqn:E
  end; [|discriminate].
  injection H as <-.
  repeat (apply andb_true_iff in E; destruct E as [E ?]).
  repeat match goal with
         | H : (_ <=? _) = true |- _ => apply Z.leb_le in H
         end.
  change (2000 <= 2000 + y <= 2099). lia.
Qed.

(** Projections of a state built with the setters. *)
Ltac state_simpl :=
  cbn [i counter_per_minute lst cps store_data parsed_df record_time
       save_interval save_txt new_timestamp
       set_i set_counter_per_minute set_lst set_cps set_store_data
       set_parsed_df set_record_time set_save_interval set_save_txt
       set_new_timestamp].

Lemma row_pass (record : bytes) (s : state) (b : Z) (rest : bytes)
    (v0 v1 : pyval) (samples : list Z) (t : datetime) (txt : string) :
  skipn (i s) record = b :: rest ->
  b <> 0x55 ->
  store_data s = true ->
  cps s = 59%nat ->
  lst s = v0 :: v1 :: map VInt samples ->
  length samples = 59%nat ->
  record_time s = Some t ->
  dt_year t < 9999 ->
  save_txt s = Some txt ->
  exists s',
    phases record s = Ok s'
    /\ skipn (i s') record = rest
    /\ parsed_df s'
       = parsed_df s ++ [v0 :: v1 :: VInt (sum_Z (samples ++ [b]))
                            :: map VInt (samples ++ [b])]
    /\ cps s' = 0%nat
    /\ length (lst s') = 2%nat
    /\ store_data s' = true.
Proof.
  intros Hin Hb Hstore Hcps Hlst Hlen Htime Hyear Htxt.
  pose proof (getitem_here _ _ _ _ Hin) as Hget.
  destruct (add_minute_ok t Hyear) as [t' Hadd].
  unfold phases. rewrite (marker_phase_other record s b Hget Hb). cbn [bind].
  unfold sample_phase. rewrite Hstore, Hget. cbn [bind].
  unfold row_phase.
  cbn [cps lst set_i set_cps set_lst parsed_df record_time save_txt].
  rewrite Hcps. cbn [Nat.add Nat.eqb]. rewrite Hlst.
  assert (Hslice : slice ((v0 :: v1 :: map VInt samples) ++ [VInt b]) 2 62
                   = map VInt (samples ++ [b])).
  { unfold slice. cbn [app skipn]. change (62 - 2)%nat with 60%nat.
    rewrite map_app. cbn [map]. apply firstn_all2.
    rewrite length_app, length_map. cbn [length]. lia. }
  rewrite Hslice. unfold py_sum. rewrite py_sum_from_map. cbn [bind].
  unfold df_append, py_insert, n_columns.
  cbn [app firstn skipn length].
  rewrite length_app, length_map, Hlen. cbn [length Nat.add Nat.eqb bind].
  state_simpl. cbn [length Nat.eqb negb].
  rewrite Htime. cbn [load bind]. rewrite Hadd. cbn [bind].
  state_simpl. rewrite Htxt. cbn [load bind].
  eexists. split; [reflexivity|]. cbn.
  rewrite map_app. cbn [map].
  split; [|repeat split; try assumption].
  apply (skipn_next record (i s) 1 [b]); [exact Hin|reflexivity].
Qed.

(** *** Whole windows *)

Lemma returns_at_sentinel (record : bytes) (g : globals) (s s' : state) :
  reaches record (init_state g) s ->
  (i s < length record)%nat ->
  phases record s = Ok s' ->
  sentinel_at record (i s') ->
  bin_to_csv record g = Some (CsvAtSentinel (parsed_df s')).
Proof.
  intros Hr Hlt Hp Hs. unfold bin_to_csv.
  destruct (scan_reaches record _ _ Hr (length record)) as (fuel & Hf & ->);
    [cbn; lia|].
  destruct fuel as [|fuel]; [lia|]. cbn [scan].
  destruct (Nat.ltb_spec (i s) (length record)); [|lia].
  unfold body. rewrite Hp.
  apply eod_check_true in Hs. now rewrite Hs.
Qed.

Lemma encode_window_head (w : window) (rest : bytes) :
  exists tl, encode_window w ++ rest = 0x55 :: tl.
Proof.
  unfold encode_window. destruct (w_tag5 w); cbn [app]; eexists; reflexivity.
Qed.

(** From the head of a window to the pass that fills its row. *)
Lemma window_run (record : bytes) (s0 s : state) (w : window)
    (row : list pyval) (rest : bytes) :
  window_row w row ->
  reaches record s0 s ->
  cps s = 0%nat ->
  lst s = [] \/ length (lst s) = 2%nat ->
  skipn (i s) record = encode_window w ++ rest ->
  exists s59 s60,
    reaches record s0 s59
    /\ (i s59 < length record)%nat
    /\ phases record s59 = Ok s60
    /\ parsed_df s60 = parsed_df s ++ [row]
    /\ cps s60 = 0%nat
    /\ length (lst s60) = 2%nat
    /\ skipn (i s60) record = rest.
Proof.
  intros (t & txt & interval & Ht & Hsave & Hlen & Hplain & ->) Hr Hcps Hlst Hin.
  destruct (w_samples w) as [|b0 tail] eqn:Hsamples; [discriminate|].
  cbn [length] in Hlen.
  assert (Htail : tail <> []) by (intros ->; discriminate).
  destruct (exists_last Htail) as (mid & blast & ->).
  rewrite length_app in Hlen. cbn [length] in Hlen.
  inversion Hplain as [|? ? Hb0 Hplain']; subst.
  apply Forall_app in Hplain'. destruct Hplain' as [Hmid Hlast].
  inversion Hlast as [|? ? [Hl55 Hlff] _]; subst.
  unfold encode_window in Hin. rewrite Hsamples in Hin.
  repeat first [ rewrite <- app_assoc in Hin | progress cbn [app] in Hin ].
  destruct (window_head_pass record s w t txt interval b0
              (mid ++ blast :: rest))
    as (s1 & Hp1 & Hin1 & Hlst1 & Hcps1 & Hstore1 & Hdf1 & Htime1 & Htxt1);
    auto.
  assert (Hlt : (i s < length record)%nat).
  { clear - Hin. destruct (w_tag5 w); cbn [app] in Hin;
      eapply skipn_lt; exact Hin. }
  assert (Hbody1 : body record s = Running s1).
  { unfold body. rewrite Hp1.
    destruct mid as [|b1 mid'].
    - now rewrite (eod_check_other _ _ blast rest Hin1 Hlff).
    - inversion Hmid as [|? ? [_ Hb1] _]; subst.
      now rewrite (eod_check_other _ _ b1 _ Hin1 Hb1). }
  assert (Hr1 : reaches record s0 s1)
    by (eapply reaches_pass; [exact Hr|exact Hlt|exact Hbody1]).
  assert (Hr59 : reaches record s0 (after_samples s1 mid)).
  { apply (samples_run record s0 mid s1 blast rest); auto. lia. }
  assert (Hin59 : skipn (i (after_samples s1 mid)) record = blast :: rest).
  { cbn [after_samples i set_i].
    apply (skipn_next record (i s1) (length mid) mid); [exact Hin1|reflexivity]. }
  destruct (row_pass record (after_samples s1 mid) blast rest
              (VTime t) (VStr txt) (b0 :: mid) t txt)
    as (s60 & Hp60 & Hin60 & Hdf60 & Hcps60 & Hlst60 & _); auto.
  { unfold after_samples. state_simpl. lia. }
  { unfold after_samples. state_simpl. now rewrite Hlst1. }
  { cbn [length]. lia. }
  { pose proof (strptime_year _ _ _ _ _ _ _ Ht). lia. }
  exists (after_samples s1 mid), s60.
  split; [exact Hr59|]. split; [apply (skipn_lt _ _ _ _ Hin59)|].
  split; [exact Hp60|]. split; [|auto].
  rewrite Hdf60. unfold after_samples. state_simpl. rewrite Hdf1.
  reflexivity.
Qed.

Lemma windows_run (record : bytes) (g : globals) :
  forall ws rows s,
    ws <> [] ->
    Forall2 window_row ws rows ->
    reaches record (init_state g) s ->
    cps s = 0%nat ->
    lst s = [] \/ length (lst s) = 2%nat ->
    skipn (i s) record = history_image ws ->
    bin_to_csv record g = Some (CsvAtSentinel (parsed_df s ++ rows)).
Proof.
  induction ws as [|w ws IH]; intros rows s Hne Hrows Hr Hcps Hlst Hin;
    [contradiction|].
  inversion Hrows as [|? row ? rows' Hrow Hrows']; subst.
  unfold history_image in Hin. cbn [flat_map] in Hin.
  rewrite <- app_assoc in Hin.
  destruct (window_run record _ s w row _ Hrow Hr Hcps Hlst Hin)
    as (s59 & s60 & Hr59 & Hlt59 & Hp60 & Hdf60 & Hcps60 & Hlst60 & Hin60).
  destruct ws as [|w' ws'].
  - inversion Hrows'; subst. cbn [flat_map app] in Hin60.
    rewrite <- Hdf60.
    apply (returns_at_sentinel record g s59 s60); auto.
    apply (sentinel_at_skipn record (i s60) []). exact Hin60.
  - assert (Hbody : body record s59 = Running s60).
    { unfold body. rewrite Hp60.
      cbn [flat_map] in Hin60. rewrite <- app_assoc in Hin60.
      destruct (encode_window_head w' (flat_map encode_window ws' ++ [255; 255; 255]))
        as [tl Htl].
      rewrite Htl in Hin60.
      now rewrite (eod_check_other _ _ 0x55 tl Hin60 ltac:(discriminate)). }
    replace (parsed_df s ++ row :: rows') with (parsed_df s60 ++ rows')
      by (rewrite Hdf60, <- app_assoc; reflexivity).
    apply (IH rows' s60); auto.
    + discriminate.
    + eapply reaches_pass; [exact Hr59|exact Hlt59|exact Hbody].
Qed.

(** X13: an image made of one-minute windows is decoded to one row per
    window.  Each window is an optional tag-5 record, a tag-0 timestamp
    record with an existing date and a save mode from 0 to 5, and sixty
    samples none of which is [0x55] or [0xFF]; after the last window comes
    unused flash.  Whatever the globals, the CSV file then holds, window by
    window and in order, the timestamp of the record, the text of its save
    mode, the sum of the sixty samples and the samples. *)
Theorem windows_decoded (ws : list window) (rows : list (list pyval))
    (g : globals) :
  ws <> [] ->
  Forall2 window_row ws rows ->
  bin_to_csv (history_image ws) g = Some (CsvAtSentinel rows).
Proof.
  intros Hne Hrows.
  apply (windows_run (history_image ws) g ws rows (init_state g));
    auto using reaches_start.
Qed.

Lemma example_windows_rows : Forall2 window_row example_windows example_rows.
Proof.
  assert (Hplain : forall b n, b <> 0x55 -> b <> 255 ->
                               Forall plain_sample (repeat b n)).
  { intros b n H1 H2. apply Forall_forall. intros x Hx.
    apply repeat_spec in Hx. subst. split; assumption. }
  repeat constructor.
  - eexists _, _, _. repeat split; try reflexivity.
    apply Hplain; discriminate.
  - eexists _, _, _. repeat split; try reflexivity.
    apply Hplain; discriminate.
Qed.

Lemma windows_decoded_witness :
  bin_to_csv (history_image example_windows) fresh_globals
  = Some (CsvAtSentinel example_rows).
Proof.
  apply (windows_decoded example_windows example_rows fresh_globals).
  - discriminate.
  - exact example_windows_rows.
Defined.

(** *** Markers the decoder does not know *)

Lemma sample_pass_at (record : bytes) (s : state) (b : Z) :
  getitem record (i s) = Ok b ->
  b <> 0x55 ->
  store_data s = true ->
  (cps s + 1 <> 60)%nat ->
  phases record s = Ok (after_samples s [b]).
Proof.
  intros Hget Hb Hstore Hcps.
  unfold phases. rewrite (marker_phase_other record s b Hget Hb). cbn [bind].
  unfold sample_phase. rewrite Hstore, Hget. cbn [bind].
  unfold row_phase. cbn [cps set_i set_cps set_lst].
  destruct (Nat.eqb_spec (cps s + 1) 60); [contradiction|].
  reflexivity.
Qed.

(** X14: a marker [0x55 0xAA] whose tag is none of 0, 1 and 5 is no error.
    Once a timestamp has been seen, the marker bytes [0x55] and [0xAA] are
    stored as two samples in two passes, and the scan goes on at the tag
    byte. *)
Theorem unknown_tag_stored_as_samples (record : bytes) (s : state) (tag : Z) :
  nth_error record (i s) = Some 0x55 ->
  nth_error record (i s + 1) = Some 0xaa ->
  nth_error record (i s + 2) = Some tag ->
  tag <> 0 -> tag <> 1 -> tag <> 5 ->
  store_data s = true ->
  (cps s + 1 <> 60)%nat -> (cps s + 2 <> 60)%nat ->
  body record s = Running (after_samples s [0x55])
  /\ phases record (after_samples s [0x55]) = Ok (after_samples s [0x55; 0xaa])
  /\ i (after_samples s [0x55; 0xaa]) = (i s + 2)%nat
  /\ lst (after_samples s [0x55; 0xaa]) = lst s ++ [VInt 0x55; VInt 0xaa].
Proof.
  intros H0 H1 H2 Ht0 Ht1 Ht5 Hstore Hc1 Hc2.
  apply getitem_Some in H0, H1, H2.
  apply Z.eqb_neq in Ht0, Ht1, Ht5.
  assert (Hp : phases record s = Ok (after_samples s [0x55])).
  { unfold phases, marker_phase.
    rewrite H0. cbn [bind Z.eqb Pos.eqb]. rewrite H1. cbn [bind Z.eqb Pos.eqb].
    rewrite H2. cbn [bind]. rewrite Ht0, Ht5, Ht1. cbn [orb bind].
    unfold sample_phase. rewrite Hstore, H0. cbn [bind].
    unfold row_phase. state_simpl.
    destruct (Nat.eqb_spec (cps s + 1) 60); [contradiction|]. reflexivity. }
  split; [|split; [|split]].
  - unfold body. rewrite Hp. unfold eod_check.
    cbn [after_samples i set_i length]. rewrite H1. reflexivity.
  - rewrite <- (after_samples_cons s 0x55 [0xaa]).
    apply sample_pass_at.
    + cbn [after_samples i set_i length]. exact H1.
    + discriminate.
    + exact Hstore.
    + cbn [after_samples cps set_i set_cps length]. lia.
  - cbn. lia.
  - reflexivity.
Qed.

Lemma unknown_tag_stored_as_samples_witness :
  body (timestamp_record ++ [0; 0x55; 0xaa; 2; 0; 0; 0]) after_timestamp
  = Running (after_samples after_timestamp [0x55])
  /\ phases (timestamp_record ++ [0; 0x55; 0xaa; 2; 0; 0; 0])
            (after_samples after_timestamp [0x55])
     = Ok (after_samples after_timestamp [0x55; 0xaa])
  /\ i (after_samples after_timestamp [0x55; 0xaa]) = (13 + 2)%nat
  /\ lst (after_samples after_timestamp [0x55; 0xaa])
     = lst after_timestamp ++ [VInt 0x55; VInt 0xaa].
Proof.
  apply (unknown_tag_stored_as_samples
           (timestamp_record ++ [0; 0x55; 0xaa; 2; 0; 0; 0]) after_timestamp 2);
    try reflexivity; try discriminate; cbn; lia.
Defined.

(** *** Timestamp records that cannot be read *)

Lemma getitem_raise {A : Type} (l : list A) (k : nat) (e : exn) :
  getitem l k = Raise e -> e = IndexError.
Proof.
  unfold getitem. destruct (nth_error l k); [discriminate|].
  now intros [= <-].
Qed.

Lemma create_record_time_short (data : bytes) :
  (length data < 9)%nat -> create_record_time data = Raise IndexError.
Proof.
  intros Hlen. unfold create_record_time, bind.
  repeat match goal with
         | |- context [match getitem data ?k with _ => _ end] =>
             let E := fresh "E" in
             destruct (getitem data k) eqn:E;
             [|apply getitem_raise in E; now subst]
         end.
  apply getitem_lt in E4. lia.
Qed.

Lemma slice_length {A : Type} (l : list A) (a n : nat) :
  length (slice l a (a + n)) = Nat.min n (length l - a).
Proof.
  unfold slice. rewrite length_firstn, length_skipn.
  now replace (a + n - a)%nat with n by lia.
Qed.

(** X15: what a timestamp record that cannot be read does to the scan.  At a
    marker with tag 0 or 5 (the fields lie 4 bytes further for tag 5): when
    the image ends before the last of the six date fields, the pass raises
    [IndexError]; when the six bytes are not an existing date and time of the
    years 2000 to 2099, it raises [ValueError]; when the date is good and the
    save mode byte is not 0 to 5, it raises [SystemExit] with code 1.  In
    each case [bin_to_csv] stops without writing a CSV file. *)
Theorem timestamp_record_failures
    (record : bytes) (s : state) (tag : Z) :
  let off := if tag =? 5 then 4%nat else 0%nat in
  nth_error record (i s) = Some 0x55 ->
  nth_error record (i s + 1) = Some 0xaa ->
  nth_error record (i s + 2) = Some tag ->
  tag = 0 \/ tag = 5 ->
  ((length record <= i s + off + 8)%nat -> body record s = Raised IndexError)
  /\ (forall y mo d h mi se,
         nth_error record (i s + off + 3) = Some y ->
         nth_error record (i s + off + 4) = Some mo ->
         nth_error record (i s + off + 5) = Some d ->
         nth_error record (i s + off + 6) = Some h ->
         nth_error record (i s + off + 7) = Some mi ->
         nth_error record (i s + off + 8) = Some se ->
         strptime y mo d h mi se = Raise ValueError ->
         body record s = Raised ValueError)
  /\ (forall y mo d h mi se t mode,
         nth_error record (i s + off + 3) = Some y ->
         nth_error record (i s + off + 4) = Some mo ->
         nth_error record (i s + off + 5) = Some d ->
         nth_error record (i s + off + 6) = Some h ->
         nth_error record (i s + off + 7) = Some mi ->
         nth_error record (i s + off + 8) = Some se ->
         strptime y mo d h mi se = Ok t ->
         nth_error record (i s + off + 11) = Some mode ->
         mode < 0 \/ 5 < mode ->
         body record s = Raised (SystemExit 1)).
Proof.
  intros off H0 H1 H2 Htag.
  apply getitem_Some in H0, H1, H2.
  assert (Hhead : forall r,
             create_record_time (slice record (i s + off) (i s + off + 10)) = r ->
             marker_phase record s
             = (s1 <- (t <- r ;;
                       if tag =? 5
                       then Ok (set_new_timestamp
                                  (set_lst (set_cps (set_record_time
                                     (set_i s (i s + 4)) t) 0) []) true)
                       else Ok (set_new_timestamp (set_record_time s t) true)) ;;
                let s2 := if (length (lst s1) =? 2)%nat then set_lst s1 [] else s1 in
                t <- load (record_time s2) ;;
                let s3 := set_store_data (set_lst s2 (lst s2 ++ [VTime t])) true in
                save_type <- getitem record (i s3 + 11) ;;
                '(txt, _) <- get_save_type save_type ;;
                '(_, interval) <- get_save_type save_type ;;
                let s4 := set_save_interval (set_save_txt s3 txt) interval in
                Ok (set_i (set_lst s4 (lst s4 ++ [VStr txt])) (i s4 + 12)))).
  { intros r <-. unfold marker_phase.
    rewrite H0. cbn [bind Z.eqb Pos.eqb]. rewrite H1. cbn [bind Z.eqb Pos.eqb].
    rewrite H2. cbn [bind].
    subst off. destruct Htag as [-> | ->]; cbn [Z.eqb Pos.eqb orb set_i i];
      rewrite ?Nat.add_0_r;
      destruct (create_record_time _); reflexivity. }
  assert (Hraise : forall e, marker_phase record s = Raise e ->
                             body record s = Raised e).
  { intros e He. unfold body, phases. now rewrite He. }
  split; [|split].
  - intros Hlen. apply Hraise.
    rewrite (Hhead (Raise IndexError)); [reflexivity|].
    apply create_record_time_short. rewrite slice_length. lia.
  - intros y mo d h mi se Hy Hmo Hd Hh Hmi Hse Hbad. apply Hraise.
    rewrite (Hhead (Raise ValueError)); [reflexivity|].
    rewrite (create_record_time_at record (i s + off) _ _ _ _ _ _
               Hy Hmo Hd Hh Hmi Hse). exact Hbad.
  - intros y mo d h mi se t mode Hy Hmo Hd Hh Hmi Hse Hgood Hmode Hrange.
    apply Hraise.
    rewrite (Hhead (Ok t)).
    2:{ rewrite (create_record_time_at record (i s + off) _ _ _ _ _ _
                   Hy Hmo Hd Hh Hmi Hse). exact Hgood. }
    apply getitem_Some in Hmode.
    assert (Hsave : get_save_type mode = Raise (SystemExit 1)).
    { unfold get_save_type.
      repeat match goal with
             | |- context [?a =? ?b] => destruct (Z.eqb_spec a b); [lia|]
             end.
      reflexivity. }
    subst off. destruct Htag as [-> | ->]; cbn [Z.eqb Pos.eqb bind] in Hmode |- *;
      rewrite ?Nat.add_0_r in Hmode; state_simpl;
      destruct (length (lst s) =? 2)%nat; state_simpl; cbn [load bind length Nat.eqb];
      state_simpl; rewrite Hmode; cbn [bind]; rewrite Hsave; reflexivity.
Qed.

Lemma timestamp_record_failures_witness :
  body [0x55; 0xaa; 0; 23; 13; 7; 17; 19; 34; 0x55; 0xaa; 1; 0; 0; 0; 0]
       (init_state fresh_globals)
  = Raised ValueError.
Proof.
  refine (proj1 (proj2 (timestamp_record_failures
            [0x55; 0xaa; 0; 23; 13; 7; 17; 19; 34; 0x55; 0xaa; 1; 0; 0; 0; 0]
            (init_state fresh_globals) 0 eq_refl eq_refl eq_refl
            (or_introl eq_refl)))
          23 13 7 17 19 34 eq_refl eq_refl eq_refl eq_refl eq_refl eq_refl
          eq_refl).
Defined.

(** *** Images without a timestamp record *)

Lemma marker_phase_store_data (record : bytes) (s s' : state) :
  ~ timestamp_marker_at record (i s) ->
  marker_phase record s = Ok s' ->
  store_data s' = store_data s.
Proof.
  intros Hno H. unfold marker_phase in H. split_run H;
    try (injection H as <-; state_simpl;
         repeat match goal with
                | |- store_data (if ?b then _ else _) = _ => destruct b
                end; first [reflexivity | assumption]).
  all: exfalso;
    repeat match goal with
           | E : getitem _ _ = Ok _ |- _ => apply getitem_Some in E
           | E : (_ =? _) = true |- _ => apply Z.eqb_eq in E; subst
           | E : (_ || _) = true |- _ => apply orb_true_iff in E; destruct E
           end; try discriminate;
    apply Hno; unfold timestamp_marker_at; auto.
Qed.

Lemma sample_phase_store_data (record : bytes) (s s' : state) :
  sample_phase record s = Ok s' -> store_data s' = store_data s.
Proof.
  intros H. unfold sample_phase in H. split_run H;
    injection H as <-;
    repeat match goal with
           | E : Ok _ = Ok _ |- _ => injection E as <-
           end; state_simpl; first [reflexivity | assumption].
Qed.

Lemma phases_without_timestamp (record : bytes) (s s' : state) :
  ~ timestamp_marker_at record (i s) ->
  phases record s = Ok s' ->
  well_formed s ->
  store_data s = false ->
  store_data s' = false /\ parsed_df s' = parsed_df s.
Proof.
  intros Hno H Hwf Hstore. unfold phases, bind in H.
  destruct (marker_phase record s) as [s1|] eqn:H1; [|discriminate].
  destruct (sample_phase record s1) as [s2|] eqn:H2; [|discriminate].
  pose proof (marker_phase_store_data _ _ _ Hno H1) as Hs1.
  pose proof (sample_phase_store_data _ _ _ H2) as Hs2.
  pose proof (marker_phase_parsed_df _ _ _ H1) as Hd1.
  pose proof (sample_phase_parsed_df _ _ _ H2) as Hd2.
  assert (Hwf2 : well_formed s2)
    by eauto using marker_phase_well_formed, sample_phase_well_formed.
  assert (Hst2 : store_data s2 = false) by congruence.
  destruct (Nat.eq_dec (cps s2) 60) as [Hc|Hc].
  - destruct (row_phase_emit s2 s' H Hc)
      as (a & b & samples & _ & _ & _ & Hl & _).
    destruct Hwf2 as [_ Hshape]. rewrite Hst2 in Hshape.
    rewrite Hshape in Hl. discriminate.
  - apply row_phase_skip in H; [|assumption]. subst s'.
    split; congruence.
Qed.

Lemma scan_without_timestamp (record : bytes) :
  (forall k, ~ timestamp_marker_at record k) ->
  forall fuel s df,
    well_formed s ->
    store_data s = false ->
    parsed_df s = [] ->
    csv_rows (scan fuel record s) = Some df ->
    df = [].
Proof.
  intros Hno. induction fuel as [|fuel IH]; intros s df Hwf Hstore Hdf;
    cbn [scan]; destruct (Nat.ltb_spec (i s) (length record)); cbn [csv_rows];
    try discriminate; try (intros [= <-]; assumption).
  destruct (body record s) as [s'|df'|e] eqn:Hb; cbn [csv_rows];
    try discriminate.
  - apply body_running in Hb. destruct Hb as [Hp _].
    destruct (phases_without_timestamp _ _ _ (Hno (i s)) Hp Hwf Hstore).
    apply IH; [eapply phases_well_formed; eauto|assumption|congruence].
  - intros [= <-]. apply body_returned in Hb.
    destruct Hb as (s' & Hp & _ & ->).
    destruct (phases_without_timestamp _ _ _ (Hno (i s)) Hp Hwf Hstore).
    congruence.
Qed.

(** X16: no row without a timestamp.  When the image holds no marker
    [0x55 0xAA] with tag 0 or tag 5 at any position, then whatever else it
    holds and whatever the globals, a CSV file that [bin_to_csv] writes has
    no row. *)
Theorem no_rows_without_timestamp (record : bytes) (g : globals)
    (df : list (list pyval)) :
  (forall k, ~ timestamp_marker_at record k) ->
  csv_rows (bin_to_csv record g) = Some df ->
  df = [].
Proof.
  intros Hno. apply (scan_without_timestamp record Hno);
    [apply init_state_well_formed|reflexivity|reflexivity].
Qed.

Lemma no_rows_without_timestamp_witness :
  csv_rows (bin_to_csv (repeat 7 70 ++ [255; 255; 255]) fresh_globals) = Some [].
Proof.
  destruct (csv_rows (bin_to_csv (repeat 7 70 ++ [255; 255; 255]) fresh_globals))
    as [df|] eqn:E; [|vm_compute in E; discriminate E].
  f_equal.
  apply (no_rows_without_timestamp (repeat 7 70 ++ [255; 255; 255])
           fresh_globals df); [|exact E].
  intros k (H & _).
  apply nth_error_In in H. apply in_app_or in H. destruct H as [H|H].
  - apply repeat_spec in H. discriminate.
  - cbn in H. repeat (destruct H as [H|H]; [discriminate|]). contradiction.
Defined.

(** *** The cursor *)

Lemma marker_phase_i_upper (record : bytes) (s s' : state) :
  marker_phase record s = Ok s' -> (i s' <= i s + 16)%nat.
Proof.
  intros H. unfold marker_phase in H. split_run H;
    injection H as <-; cbn; subst;
    repeat match goal with
           | E : Ok _ = Ok _ |- _ => injection E as <-
           end; cbn; lia.
Qed.

(** X17: [bin_to_csv] ends on every image.  A pass that does not end the
    scan moves the cursor forward by at least 1 and at most 17 bytes and
    leaves it inside the image, so the loop makes at most [len(image)]
    passes; the call ends with a CSV file or with an exception. *)
Theorem bin_to_csv_terminates (record : bytes) (g : globals) :
  (exists f, bin_to_csv record g = Some f)
  /\ forall s s',
       body record s = Running s' ->
       (i s + 1 <= i s' <= i s + 17)%nat /\ (i s' < length record)%nat.
Proof.
  split.
  - destruct (bin_to_csv record g) as [f|] eqn:E; [now exists f|].
    exfalso. revert E. apply scan_total. cbn. lia.
  - intros s s' Hb. apply body_running in Hb. destruct Hb as [Hp Hi].
    split; [|lia]. split; [lia|].
    unfold phases, bind in Hp.
    destruct (marker_phase record s) as [s1|] eqn:H1; [|discriminate].
    destruct (sample_phase record s1) as [s2|] eqn:H2; [|discriminate].
    apply marker_phase_i_upper in H1. apply sample_phase_i in H2.
    apply row_phase_i in Hp. lia.
Qed.

(** *** [create_record_time] *)

Lemma days_in_month_bounds (y m : Z) : 28 <= days_in_month y m <= 31.
Proof.
  unfold days_in_month.
  repeat match goal with
         | |- context [if ?b then _ else _] => destruct b
         end; lia.
Qed.

(** X18: what [create_record_time] returns.  A slice of fewer than nine
    bytes raises [IndexError].  When a timestamp comes back, it is an
    existing date and time of day in the years 2000 to 2099, and its fields
    are the bytes 3 to 8 of the slice: year minus 2000, month, day, hour,
    minute and second; the bytes 0 to 2 and those from 9 on have no
    influence. *)
Theorem create_record_time_result (data : bytes) :
  ((length data < 9)%nat -> create_record_time data = Raise IndexError)
  /\ forall t,
       create_record_time data = Ok t ->
       (9 <= length data)%nat
       /\ valid_datetime t
       /\ 2000 <= dt_year t <= 2099
       /\ firstn 6 (skipn 3 data)
          = [dt_year t - 2000; dt_month t; dt_day t;
             dt_hour t; dt_minute t; dt_second t].
Proof.
  split; [apply create_record_time_short|].
  intros t H.
  unfold create_record_time, bind in H.
  destruct (getitem data 3) as [y|] eqn:E3; [|discriminate].
  destruct (getitem data 4) as [mo|] eqn:E4; [|discriminate].
  destruct (getitem data 5) as [d|] eqn:E5; [|discriminate].
  destruct (getitem data 6) as [h|] eqn:E6; [|discriminate].
  destruct (getitem data 7) as [mi|] eqn:E7; [|discriminate].
  destruct (getitem data 8) as [se|] eqn:E8; [|discriminate].
  pose proof (getitem_lt _ _ _ E8) as Hlen.
  pose proof (strptime_year _ _ _ _ _ _ _ H) as Hyear.
  unfold strptime in H.
  match type of H with
  | (if ?c then _ else _) = _ => destruct c eqn:E
  end; [|discriminate].
  injection H as <-.
  repeat (apply andb_true_iff in E; destruct E as [E ?]).
  repeat match goal with
         | H : (_ <=? _) = true |- _ => apply Z.leb_le in H
         end.
  split; [lia|]. split; [|split; [exact Hyear|]].
  - unfold valid_datetime.
    change (1 <= 2000 + y <= 9999 /\ 1 <= mo <= 12
            /\ 1 <= d <= days_in_month (2000 + y) mo
            /\ 0 <= h <= 23 /\ 0 <= mi <= 59 /\ 0 <= se <= 59).
    lia.
  - destruct data as [|x0 [|x1 [|x2 [|x3 [|x4 [|x5 [|x6 [|x7 [|x8 rest]]]]]]]]];
      cbn in Hlen; try lia.
    cbn in E3, E4, E5, E6, E7, E8.
    injection E3 as ->. injection E4 as ->. injection E5 as ->.
    injection E6 as ->. injection E7 as ->. injection E8 as ->.
    change ([y; mo; d; h; mi; se] = [2000 + y - 2000; mo; d; h; mi; se]).
    f_equal. lia.
Qed.

Lemma create_record_time_result_witness :
  create_record_time [1; 2; 3] = Raise IndexError.
Proof.
  apply (proj1 (create_record_time_result [1; 2; 3])). cbn. lia.
Defined.

(** *** The globals of an earlier call *)

(** Case analysis on every [match] of the goal, innermost first. *)
Ltac split_goal :=
  repeat (match goal with
          | |- context [match ?x with _ => _ end] =>
              lazymatch x with
              | context [match _ with _ => _ end] => fail
              | _ => destruct x eqn:?
              end
          end; state_simpl; cbn [load bind]).

Ltac same_run_tac :=
  unfold same_run; state_simpl;
  repeat match goal with
         | H : _ /\ _ |- _ => destruct H
         end;
  repeat split; try congruence; auto.

Lemma same_run_fields (s1 s2 : state) :
  same_run s1 s2 ->
  exists rt si st nt,
    s2 = mkState (i s1) (counter_per_minute s1) (lst s1) (cps s1)
                 (store_data s1) (parsed_df s1) rt si st nt
    /\ (if store_data s1
        then record_time s1 = rt /\ save_interval s1 = si /\ save_txt s1 = st
        else lst s1 = []).
Proof.
  destruct s1, s2. unfold same_run. cbn.
  intros (-> & -> & -> & -> & -> & -> & H).
  eexists _, _, _, _. split; [reflexivity|exact H].
Qed.

Lemma marker_phase_same (record : bytes) (s1 s2 : state) :
  same_run s1 s2 ->
  same_result (marker_phase record s1) (marker_phase record s2).
Proof.
  intros H. apply same_run_fields in H.
  destruct H as (rt & si & st & nt & -> & H).
  destruct s1 as [i0 cpm0 lst0 cps0 sd0 df0 rt0 si0 st0 nt0]. cbn in H.
  unfold same_result, marker_phase, bind, datetime_add_int. state_simpl.
  destruct sd0.
  - destruct H as (<- & <- & <-).
    split_goal; try exact I; try discriminate; same_run_tac.
  - subst lst0.
    split_goal; try exact I; try discriminate; same_run_tac.
Qed.

Lemma sample_phase_same (record : bytes) (s1 s2 : state) :
  same_run s1 s2 ->
  same_result (sample_phase record s1) (sample_phase record s2).
Proof.
  intros H. apply same_run_fields in H.
  destruct H as (rt & si & st & nt & -> & H).
  destruct s1 as [i0 cpm0 lst0 cps0 sd0 df0 rt0 si0 st0 nt0]. cbn in H.
  unfold same_result, sample_phase, bind. state_simpl.
  destruct sd0.
  - destruct H as (<- & <- & <-).
    split_goal; try exact I; try discriminate; same_run_tac.
  - subst lst0.
    split_goal; try exact I; try discriminate; same_run_tac.
Qed.

Lemma row_phase_same (s1 s2 : state) :
  same_run s1 s2 ->
  same_result (row_phase s1) (row_phase s2).
Proof.
  intros H. apply same_run_fields in H.
  destruct H as (rt & si & st & nt & -> & H).
  destruct s1 as [i0 cpm0 lst0 cps0 sd0 df0 rt0 si0 st0 nt0]. cbn in H.
  unfold same_result, row_phase. state_simpl.
  destruct (cps0 =? 60)%nat; [|same_run_tac; destruct sd0; auto].
  destruct sd0.
  - destruct H as (<- & <- & <-). unfold bind. state_simpl.
    split_goal; try exact I; try discriminate; same_run_tac.
  - subst lst0. reflexivity.
Qed.

Lemma phases_same (record : bytes) (s1 s2 : state) :
  same_run s1 s2 ->
  same_result (phases record s1) (phases record s2).
Proof.
  intros H. unfold phases.
  pose proof (marker_phase_same record s1 s2 H) as H1.
  destruct (marker_phase record s1) as [a1|], (marker_phase record s2) as [a2|];
    cbn [same_result bind] in *; try contradiction; auto.
  pose proof (sample_phase_same record a1 a2 H1) as H2.
  destruct (sample_phase record a1) as [b1|], (sample_phase record a2) as [b2|];
    cbn [same_result bind] in *; try contradiction; auto.
  now apply row_phase_same.
Qed.

Lemma body_same (record : bytes) (s1 s2 : state) :
  same_run s1 s2 ->
  same_outcome (body record s1) (body record s2).
Proof.
  intros H. unfold body.
  pose proof (phases_same record s1 s2 H) as Hp.
  destruct (phases record s1) as [a1|], (phases record s2) as [a2|];
    cbn [same_result same_outcome] in *; try contradiction; auto.
  assert (He : eod_check record a1 = eod_check record a2).
  { unfold eod_check. destruct Hp as (-> & _). reflexivity. }
  rewrite He.
  destruct (eod_check record a2) as [[|]|]; cbn [same_outcome]; auto.
  now destruct Hp as (_ & _ & _ & _ & _ & -> & _).
Qed.

Lemma scan_same (record : bytes) :
  forall fuel s1 s2,
    same_run s1 s2 ->
    csv_rows (scan fuel record s1) = csv_rows (scan fuel record s2).
Proof.
  induction fuel as [|fuel IH]; intros s1 s2 H; cbn [scan];
    pose proof H as (Hi & _ & _ & _ & _ & Hdf & _); rewrite Hi;
    destruct (i s2 <? length record)%nat; cbn [csv_rows]; try congruence.
  pose proof (body_same record s1 s2 H) as Hb.
  destruct (body record s1) as [a1|d1|e1], (body record s2) as [a2|d2|e2];
    cbn [same_outcome csv_rows] in *; try contradiction; auto.
  now subst.
Qed.

(** X19: what [bin_to_csv] writes does not depend on the globals
    [record_time], [save_interval], [save_txt] and [new_timestamp] that an
    earlier call has left behind: for every image, two calls that start from
    different globals write the same rows, or neither writes a CSV file. *)
Theorem rows_independent_of_globals (record : bytes) (g1 g2 : globals) :
  csv_rows (bin_to_csv record g1) = csv_rows (bin_to_csv record g2).
Proof.
  apply scan_same. unfold same_run. cbn. repeat split.
Qed.

(** *** The timestamps of the rows *)

Lemma strptime_valid (y mo d h mi se : Z) (t : datetime) :
  strptime y mo d h mi se = Ok t -> valid_datetime t.
Proof.
  unfold strptime. intros H.
  match type of H with
  | (if ?c then _ else _) = _ => destruct c eqn:E
  end; [|discriminate].
  injection H as <-.
  repeat (apply andb_true_iff in E; destruct E as [E ?]).
  repeat match goal with
         | H : (_ <=? _) = true |- _ => apply Z.leb_le in H
         end.
  unfold valid_datetime.
  change (1 <= 2000 + y <= 9999 /\ 1 <= mo <= 12
          /\ 1 <= d <= days_in_month (2000 + y) mo
          /\ 0 <= h <= 23 /\ 0 <= mi <= 59 /\ 0 <= se <= 59).
  lia.
Qed.

Lemma create_record_time_valid (data : bytes) (t : datetime) :
  create_record_time data = Ok t -> valid_datetime t.
Proof.
  unfold create_record_time, bind. intros H.
  repeat match type of H with
         | match getitem ?l ?k with _ => _ end = _ =>
             destruct (getitem l k); [|discriminate]
         end.
  now apply strptime_valid in H.
Qed.

Lemma add_minute_valid (t t' : datetime) :
  valid_datetime t -> add_minute t = Ok t' -> valid_datetime t'.
Proof.
  intros (Hy & Hm & Hd & Hh & Hmi & Hs) H. unfold add_minute in H.
  repeat match type of H with
         | (if ?c <? ?d then _ else _) = _ =>
             destruct (Z.ltb_spec c d)
         end; try discriminate; injection H as <-; unfold valid_datetime;
    cbn [dt_year dt_month dt_day dt_hour dt_minute dt_second];
    repeat match goal with
           | |- context [days_in_month ?a ?b] =>
               lazymatch goal with
               | _ : 28 <= days_in_month a b <= 31 |- _ => fail
               | _ => pose proof (days_in_month_bounds a b)
               end
           end; lia.
Qed.

Lemma valid_pyval_slices (l : list pyval) (v : pyval) (k : nat) :
  Forall valid_pyval l -> valid_pyval v -> Forall valid_pyval (py_insert k v l).
Proof.
  intros Hl Hv. unfold py_insert.
  rewrite <- (firstn_skipn k l) in Hl. apply Forall_app in Hl.
  destruct Hl as [Hhead Htail].
  apply Forall_app. split; [assumption|]. now constructor.
Qed.

Lemma marker_phase_timed (record : bytes) (s s' : state) :
  marker_phase record s = Ok s' -> timed s -> timed s'.
Proof.
  intros H (Hl & Hdf & Ht). unfold marker_phase in H. split_run H;
    injection H as <-;
    repeat match goal with
           | E : create_record_time _ = Ok _ |- _ =>
               apply create_record_time_valid in E
           | E : Ok _ = Ok _ |- _ => injection E as <-
           | E : load _ = Ok _ |- _ => cbn in E; injection E as <-
           end;
    unfold timed; state_simpl;
    repeat split; auto;
    repeat (apply Forall_app; split); auto;
    repeat first [ apply Forall_nil
                 | apply Forall_cons; [first [exact I | assumption]|] ];
    try (intros _; eexists; split; [reflexivity|assumption]);
    try (intros; apply Ht; first [reflexivity | assumption | congruence]).
Qed.

Lemma sample_phase_timed (record : bytes) (s s' : state) :
  sample_phase record s = Ok s' -> timed s -> timed s'.
Proof.
  intros H (Hl & Hdf & Ht). unfold sample_phase in H. split_run H;
    injection H as <-;
    repeat match goal with
           | E : Ok _ = Ok _ |- _ => injection E as <-
           end;
    unfold timed; state_simpl;
    repeat split; auto;
    repeat (apply Forall_app; split); auto;
    repeat first [ apply Forall_nil
                 | apply Forall_cons; [first [exact I | assumption]|] ];
    try (intros; apply Ht; first [reflexivity | assumption | congruence]).
Qed.

Lemma row_phase_timed (s s' : state) :
  row_phase s = Ok s' -> well_formed s -> timed s -> timed s'.
Proof.
  intros H [_ Hshape] (Hl & Hdf & Ht).
  destruct (Nat.eq_dec (cps s) 60) as [Hcps|Hcps].
  - destruct (row_phase_emit s s' H Hcps)
      as (a & b & samples & t & t' & txt & Hlst & Hn & Hdf' & _ & Hlst'
          & Htime & Hadd & Htime' & _ & Hst).
    assert (Hstore : store_data s = true).
    { destruct (store_data s); [reflexivity|].
      rewrite Hshape in Hlst. discriminate. }
    destruct (Ht Hstore) as (t0 & Ht0 & Hv0).
    rewrite Htime in Ht0. injection Ht0 as <-.
    pose proof (add_minute_valid t t' Hv0 Hadd) as Hv'.
    unfold timed. rewrite Hlst', Hdf', Htime'.
    split; [|split].
    + repeat first [ apply Forall_nil
                   | apply Forall_cons; [first [exact I | assumption]|] ].
    + apply Forall_app. split; [assumption|].
      constructor; [|constructor].
      rewrite Hlst in Hl.
      inversion Hl as [|? ? Ha Hl1]; subst.
      inversion Hl1 as [|? ? Hb Hl2]; subst.
      repeat (constructor; [first [assumption | exact I]|]). exact Hl2.
    + intros _. now exists t'.
  - apply row_phase_skip in H; [|assumption]. subst s'.
    repeat split; assumption.
Qed.

Lemma phases_timed (record : bytes) (s s' : state) :
  phases record s = Ok s' -> well_formed s -> timed s -> timed s'.
Proof.
  intros H Hwf Ht. unfold phases, bind in H.
  destruct (marker_phase record s) as [s1|] eqn:H1; [|discriminate].
  destruct (sample_phase record s1) as [s2|] eqn:H2; [|discriminate].
  apply (row_phase_timed s2 s' H).
  - eauto using marker_phase_well_formed, sample_phase_well_formed.
  - eauto using marker_phase_timed, sample_phase_timed.
Qed.

Lemma scan_timed (record : bytes) :
  forall fuel s df,
    well_formed s -> timed s ->
    csv_rows (scan fuel record s) = Some df ->
    Forall (Forall valid_pyval) df.
Proof.
  induction fuel as [|fuel IH]; intros s df Hwf Ht; cbn [scan];
    destruct (Nat.ltb_spec (i s) (length record)); cbn [csv_rows];
    try discriminate; try (intros [= <-]; apply Ht).
  destruct (body record s) as [s'|df'|e] eqn:Hb; cbn [csv_rows];
    try discriminate.
  - apply body_running in Hb. destruct Hb as [Hp _].
    apply IH; eauto using phases_well_formed, phases_timed.
  - intros [= <-]. apply body_returned in Hb.
    destruct Hb as (s' & Hp & _ & ->).
    apply (phases_timed record s s' Hp Hwf Ht).
Qed.

(** X20: every row of a CSV file that [bin_to_csv] writes starts with a
    timestamp that is an existing date and time of day (month 1 to 12, a day
    the month has, hour 0 to 23, minute and second 0 to 59), whatever the
    image and whatever the globals; this holds for the timestamps read from
    the image and for those made by adding a minute. *)
Theorem row_timestamps_exist (record : bytes) (g : globals)
    (df : list (list pyval)) :
  csv_rows (bin_to_csv record g) = Some df ->
  Forall (fun row => exists t rest,
              row = VTime t :: rest /\ valid_datetime t) df.
Proof.
  intros H.
  assert (Hrows : Forall log_row df)
    by (apply (scan_rows record _ _ _ (init_state_well_formed g) H)).
  assert (Htimes : Forall (Forall valid_pyval) df).
  { unfold bin_to_csv in H.
    eapply scan_timed; [apply init_state_well_formed| |exact H].
    unfold timed. cbn. repeat split; try constructor. discriminate. }
  rewrite Forall_forall in *. intros row Hin.
  destruct (Hrows row Hin) as (t & txt & samples & -> & _).
  specialize (Htimes _ Hin). inversion Htimes as [|? ? Hv _]; subst.
  now exists t, (VStr txt :: VInt (sum_Z samples) :: map VInt samples).
Qed.

Lemma row_timestamps_exist_witness :
  Forall (fun row => exists t rest,
              row = VTime t :: rest /\ valid_datetime t) example_rows.
Proof.
  apply (row_timestamps_exist (history_image example_windows) fresh_globals).
  vm_compute. reflexivity.
Defined.

(** *** One minute later *)

Lemma sum_Z_app (l : list Z) (x : Z) : sum_Z (l ++ [x]) = sum_Z l + x.
Proof.
  unfold sum_Z. induction l as [|a l IH]; cbn [app fold_right]; lia.
Qed.

Lemma days_before_month_succ (y m : Z) :
  1 <= m ->
  days_before_month y (m + 1) = days_before_month y m + days_in_month y m.
Proof.
  intros Hm. unfold days_before_month.
  replace (Z.to_nat (m + 1 - 1)) with (S (Z.to_nat (m - 1))) by lia.
  rewrite seq_S, !map_app. cbn [map]. rewrite sum_Z_app.
  do 2 f_equal. lia.
Qed.

Lemma days_before_month_12 (y : Z) :
  days_before_month y 12 + 31 = if is_leap y then 366 else 365.
Proof.
  unfold days_before_month, sum_Z, days_in_month. cbn.
  destruct (is_leap y); reflexivity.
Qed.

Lemma days_before_year_succ (y : Z) :
  days_before_year (y + 1)
  = days_before_year y + (if is_leap y then 366 else 365).
Proof.
  unfold days_before_year, is_leap.
  replace (y + 1 - 1) with y by lia.
  destruct (Z.eqb_spec (y mod 4) 0), (Z.eqb_spec (y mod 100) 0),
    (Z.eqb_spec (y mod 400) 0); cbn [andb orb negb];
    Z.div_mod_to_equations; lia.
Qed.

(** X21: adding a minute to the current timestamp, as the decoder does after
    each row.  From an existing date and time the result is again an existing
    date and time, lies exactly one minute later in the calendar (hours, days,
    months of 28 to 31 days, leap years and years roll over), and has the
    same second; the addition fails only in the last minute of year 9999. *)
Theorem add_minute_one_minute_later (t : datetime) :
  valid_datetime t ->
  (forall t',
      add_minute t = Ok t' ->
      valid_datetime t'
      /\ minute_number t' = minute_number t + 1
      /\ dt_second t' = dt_second t)
  /\ (forall e,
         add_minute t = Raise e ->
         e = OverflowError
         /\ dt_year t = 9999 /\ dt_month t = 12 /\ dt_day t = 31
         /\ dt_hour t = 23 /\ dt_minute t = 59).
Proof.
  intros Hv. pose proof Hv as (Hy & Hm & Hd & Hh & Hmi & Hs).
  split.
  - intros t' H. split; [exact (add_minute_valid t t' Hv H)|].
    unfold add_minute in H.
    destruct (Z.ltb_spec (dt_minute t) 59);
      [injection H as <-; unfold minute_number;
       cbn [dt_year dt_month dt_day dt_hour dt_minute dt_second];
       split; [lia|reflexivity]|].
    destruct (Z.ltb_spec (dt_hour t) 23);
      [injection H as <-; unfold minute_number;
       cbn [dt_year dt_month dt_day dt_hour dt_minute dt_second];
       split; [lia|reflexivity]|].
    destruct (Z.ltb_spec (dt_day t) (days_in_month (dt_year t) (dt_month t)));
      [injection H as <-; unfold minute_number;
       cbn [dt_year dt_month dt_day dt_hour dt_minute dt_second];
       split; [lia|reflexivity]|].
    destruct (Z.ltb_spec (dt_month t) 12).
    { injection H as <-. unfold minute_number.
      cbn [dt_year dt_month dt_day dt_hour dt_minute dt_second].
      rewrite days_before_month_succ by lia.
      split; [lia|reflexivity]. }
    destruct (Z.ltb_spec (dt_year t) 9999); [|discriminate].
    injection H as <-. unfold minute_number.
    cbn [dt_year dt_month dt_day dt_hour dt_minute dt_second].
    rewrite days_before_year_succ.
    pose proof (days_before_month_12 (dt_year t)) as H12.
    assert (Hmonth : dt_month t = 12) by lia. rewrite Hmonth in *.
    assert (Hdim : days_in_month (dt_year t) 12 = 31) by reflexivity.
    change (days_before_month (dt_year t + 1) 1) with 0.
    split; [lia|reflexivity].
  - intros e H. unfold add_minute in H.
    repeat match type of H with
           | (if ?c <? ?d then _ else _) = _ =>
               destruct (Z.ltb_spec c d); try discriminate
           end.
    injection H as <-.
    assert (Hmonth : dt_month t = 12) by lia. rewrite Hmonth in *.
    assert (Hdim : days_in_month (dt_year t) 12 = 31) by reflexivity.
    repeat split; lia.
Qed.

Lemma add_minute_one_minute_later_witness :
  add_minute (mkDatetime 2024 2 29 23 59 7) = Ok (mkDatetime 2024 3 1 0 0 7)
  /\ minute_number (mkDatetime 2024 3 1 0 0 7)
     = minute_number (mkDatetime 2024 2 29 23 59 7) + 1.
Proof.
  split; [reflexivity|].
  refine (proj1 (proj2 (proj1 (add_minute_one_minute_later
            (mkDatetime 2024 2 29 23 59 7) _) _ eq_refl))).
  unfold valid_datetime. cbn. lia.
Defined.

(** *** Several minutes after one timestamp record *)

Lemma row_pass_full (record : bytes) (s : state) (b : Z) (rest : bytes)
    (v0 v1 : pyval) (samples : list Z) (t t' : datetime) (txt : string) :
  skipn (i s) record = b :: rest ->
  b <> 0x55 ->
  store_data s = true ->
  cps s = 59%nat ->
  lst s = v0 :: v1 :: map VInt samples ->
  length samples = 59%nat ->
  record_time s = Some t ->
  add_minute t = Ok t' ->
  save_txt s = Some txt ->
  exists s',
    phases record s = Ok s'
    /\ skipn (i s') record = rest
    /\ parsed_df s'
       = parsed_df s ++ [v0 :: v1 :: VInt (sum_Z (samples ++ [b]))
                            :: map VInt (samples ++ [b])]
    /\ cps s' = 0%nat
    /\ lst s' = [VTime t'; VStr txt]
    /\ store_data s' = true
    /\ record_time s' = Some t'
    /\ save_txt s' = Some txt.
Proof.
  intros Hin Hb Hstore Hcps Hlst Hlen Htime Hadd Htxt.
  pose proof (getitem_here _ _ _ _ Hin) as Hget.
  unfold phases. rewrite (marker_phase_other record s b Hget Hb). cbn [bind].
  unfold sample_phase. rewrite Hstore, Hget. cbn [bind].
  unfold row_phase.
  cbn [cps lst set_i set_cps set_lst parsed_df record_time save_txt].
  rewrite Hcps. cbn [Nat.add Nat.eqb]. rewrite Hlst.
  assert (Hslice : slice ((v0 :: v1 :: map VInt samples) ++ [VInt b]) 2 62
                   = map VInt (samples ++ [b])).
  { unfold slice. cbn [app skipn]. change (62 - 2)%nat with 60%nat.
    rewrite map_app. cbn [map]. apply firstn_all2.
    rewrite length_app, length_map. cbn [length]. lia. }
  rewrite Hslice. unfold py_sum. rewrite py_sum_from_map. cbn [bind].
  unfold df_append, py_insert, n_columns.
  cbn [app firstn skipn length].
  rewrite length_app, length_map, Hlen. cbn [length Nat.add Nat.eqb bind].
  state_simpl. cbn [length Nat.eqb negb].
  rewrite Htime. cbn [load bind]. rewrite Hadd. cbn [bind].
  state_simpl. rewrite Htxt. cbn [load bind].
  eexists. split; [reflexivity|]. cbn.
  rewrite map_app. cbn [map].
  split; [|repeat split; try assumption].
  apply (skipn_next record (i s) 1 [b]); [exact Hin|reflexivity].
Qed.

Lemma split_last_of_60 (m : list Z) :
  length m = 60%nat ->
  Forall plain_sample m ->
  exists mid blast,
    m = mid ++ [blast] /\ length mid = 59%nat
    /\ Forall plain_sample mid /\ plain_sample blast.
Proof.
  intros Hlen Hplain.
  assert (Hne : m <> []) by (intros ->; discriminate).
  destruct (exists_last Hne) as (mid & blast & ->).
  rewrite length_app in Hlen. cbn [length] in Hlen.
  apply Forall_app in Hplain. destruct Hplain as [Hmid Hlast].
  inversion Hlast as [|? ? Hb _]; subst.
  exists mid, blast.
  split; [reflexivity|]. split; [lia|]. split; assumption.
Qed.

(** One minute of samples, from a state in which the list holds the
    timestamp and the mode text only. *)
Lemma minute_run (record : bytes) (s0 s : state) (m : list Z) (rest : bytes)
    (t t' : datetime) (txt : string) :
  reaches record s0 s ->
  cps s = 0%nat ->
  store_data s = true ->
  lst s = [VTime t; VStr txt] ->
  record_time s = Some t ->
  save_txt s = Some txt ->
  length m = 60%nat ->
  Forall plain_sample m ->
  add_minute t = Ok t' ->
  skipn (i s) record = m ++ rest ->
  exists s59 s60,
    reaches record s0 s59
    /\ (i s59 < length record)%nat
    /\ phases record s59 = Ok s60
    /\ skipn (i s60) record = rest
    /\ parsed_df s60
       = parsed_df s ++ [VTime t :: VStr txt :: VInt (sum_Z m) :: map VInt m]
    /\ cps s60 = 0%nat
    /\ lst s60 = [VTime t'; VStr txt]
    /\ store_data s60 = true
    /\ record_time s60 = Some t'
    /\ save_txt s60 = Some txt.
Proof.
  intros Hr Hcps Hstore Hlst Htime Htxt Hlen Hplain Hadd Hin.
  destruct (split_last_of_60 m Hlen Hplain)
    as (mid & blast & -> & Hmid & Hpmid & [Hl55 Hlff]).
  rewrite <- app_assoc in Hin. cbn [app] in Hin.
  assert (Hr59 : reaches record s0 (after_samples s mid)).
  { apply (samples_run record s0 mid s blast rest); auto. lia. }
  assert (Hin59 : skipn (i (after_samples s mid)) record = blast :: rest).
  { cbn [after_samples i set_i].
    apply (skipn_next record (i s) (length mid) mid); [exact Hin|reflexivity]. }
  destruct (row_pass_full record (after_samples s mid) blast rest
              (VTime t) (VStr txt) mid t t' txt)
    as (s60 & Hp60 & Hin60 & Hdf60 & Hcps60 & Hlst60 & Hst60 & Ht60 & Htxt60);
    auto.
  { unfold after_samples. state_simpl. lia. }
  { unfold after_samples. state_simpl. now rewrite Hlst. }
  exists (after_samples s mid), s60.
  split; [exact Hr59|]. split; [apply (skipn_lt _ _ _ _ Hin59)|].
  split; [exact Hp60|]. split; [exact Hin60|].
  split; [|auto 10].
  rewrite Hdf60. unfold after_samples. state_simpl. reflexivity.
Qed.

(** The first minute of a window, from the head of the window. *)
Lemma first_minute_run (record : bytes) (s0 s : state) (w : window)
    (m : list Z) (rest : bytes) (t t' : datetime) (txt : string) (interval : Z) :
  reaches record s0 s ->
  cps s = 0%nat ->
  lst s = [] \/ length (lst s) = 2%nat ->
  strptime (w_year w) (w_month w) (w_day w) (w_hour w) (w_minute w)
           (w_second w) = Ok t ->
  get_save_type (w_mode w) = Ok (txt, interval) ->
  length m = 60%nat ->
  Forall plain_sample m ->
  add_minute t = Ok t' ->
  skipn (i s) record
    = match w_tag5 w with Some x => [0x55; 0xaa; 5; x] | None => [] end
      ++ [0x55; 0xaa; 0; w_year w; w_month w; w_day w; w_hour w; w_minute w;
          w_second w; 0x55; 0xaa; w_mode w] ++ m ++ rest ->
  exists s59 s60,
    reaches record s0 s59
    /\ (i s59 < length record)%nat
    /\ phases record s59 = Ok s60
    /\ skipn (i s60) record = rest
    /\ parsed_df s60
       = parsed_df s ++ [VTime t :: VStr txt :: VInt (sum_Z m) :: map VInt m]
    /\ cps s60 = 0%nat
    /\ lst s60 = [VTime t'; VStr txt]
    /\ store_data s60 = true
    /\ record_time s60 = Some t'
    /\ save_txt s60 = Some txt.
Proof.
  intros Hr Hcps Hlst Ht Hsave Hlen Hplain Hadd Hin.
  destruct m as [|b0 tail]; [discriminate|].
  cbn [length] in Hlen.
  assert (Htail : tail <> []) by (intros ->; discriminate).
  destruct (exists_last Htail) as (mid & blast & ->).
  rewrite length_app in Hlen. cbn [length] in Hlen.
  inversion Hplain as [|? ? Hb0 Hplain']; subst.
  apply Forall_app in Hplain'. destruct Hplain' as [Hmid Hlast].
  inversion Hlast as [|? ? [Hl55 Hlff] _]; subst.
  repeat first [ rewrite <- app_assoc in Hin | progress cbn [app] in Hin ].
  destruct (window_head_pass record s w t txt interval b0
              (mid ++ blast :: rest))
    as (s1 & Hp1 & Hin1 & Hlst1 & Hcps1 & Hstore1 & Hdf1 & Htime1 & Htxt1);
    auto.
  assert (Hlt : (i s < length record)%nat).
  { clear - Hin. destruct (w_tag5 w); cbn [app] in Hin;
      eapply skipn_lt; exact Hin. }
  assert (Hbody1 : body record s = Running s1).
  { unfold body. rewrite Hp1.
    destruct mid as [|b1 mid'].
    - now rewrite (eod_check_other _ _ blast rest Hin1 Hlff).
    - inversion Hmid as [|? ? [_ Hb1] _]; subst.
      now rewrite (eod_check_other _ _ b1 _ Hin1 Hb1). }
  assert (Hr1 : reaches record s0 s1)
    by (eapply reaches_pass; [exact Hr|exact Hlt|exact Hbody1]).
  assert (Hr59 : reaches record s0 (after_samples s1 mid)).
  { apply (samples_run record s0 mid s1 blast rest); auto. lia. }
  assert (Hin59 : skipn (i (after_samples s1 mid)) record = blast :: rest).
  { cbn [after_samples i set_i].
    apply (skipn_next record (i s1) (length mid) mid); [exact Hin1|reflexivity]. }
  destruct (row_pass_full record (after_samples s1 mid) blast rest
              (VTime t) (VStr txt) (b0 :: mid) t t' txt)
    as (s60 & Hp60 & Hin60 & Hdf60 & Hcps60 & Hlst60 & Hst60 & Ht60 & Htxt60);
    auto.
  { unfold after_samples. state_simpl. lia. }
  { unfold after_samples. state_simpl. now rewrite Hlst1. }
  { cbn [length]. lia. }
  exists (after_samples s1 mid), s60.
  split; [exact Hr59|]. split; [apply (skipn_lt _ _ _ _ Hin59)|].
  split; [exact Hp60|]. split; [exact Hin60|].
  split; [|auto 10].
  rewrite Hdf60. unfold after_samples. state_simpl. rewrite Hdf1.
  reflexivity.
Qed.

(** The minutes after the first, up to the pass that fills the last row. *)
Lemma minutes_run (record : bytes) (s0 : state) (txt : string) (rest : bytes) :
  forall ms t rows,
    minute_rows txt t ms rows ->
    ms <> [] ->
    forall s,
      reaches record s0 s ->
      cps s = 0%nat ->
      store_data s = true ->
      lst s = [VTime t; VStr txt] ->
      record_time s = Some t ->
      save_txt s = Some txt ->
      skipn (i s) record = concat ms ++ rest ->
      exists s59 s60,
        reaches record s0 s59
        /\ (i s59 < length record)%nat
        /\ phases record s59 = Ok s60
        /\ skipn (i s60) record = rest
        /\ parsed_df s60 = parsed_df s ++ rows
        /\ cps s60 = 0%nat
        /\ length (lst s60) = 2%nat.
Proof.
  induction 1 as [|t t' m ms rows Hlen Hplain Hadd Hrows IH];
    intros Hne s Hr Hcps Hstore Hlst Htime Htxt Hin; [contradiction|].
  cbn [concat] in Hin. rewrite <- app_assoc in Hin.
  destruct (minute_run record s0 s m (concat ms ++ rest) t t' txt)
    as (s59 & s60 & Hr59 & Hlt59 & Hp60 & Hin60 & Hdf60 & Hcps60 & Hlst60
        & Hst60 & Ht60 & Htxt60); auto.
  destruct ms as [|m2 ms'].
  - inversion Hrows; subst. cbn [concat app] in Hin60.
    exists s59, s60. rewrite Hlst60. repeat split; auto.
  - assert (Hbody : body record s59 = Running s60).
    { unfold body. rewrite Hp60.
      inversion Hrows as [|? ? ? ? ? Hlen2 Hplain2 _ _]; subst.
      destruct m2 as [|b2 m2']; [discriminate|].
      inversion Hplain2 as [|? ? [_ Hb2] _]; subst.
      cbn [concat app] in Hin60.
      now rewrite (eod_check_other _ _ b2 _ Hin60 Hb2). }
    destruct (IH ltac:(discriminate) s60)
      as (s59' & s60' & Hr' & Hlt' & Hp' & Hin' & Hdf' & Hcps' & Hlst'); auto.
    { eapply reaches_pass; [exact Hr59|exact Hlt59|exact Hbody]. }
    exists s59', s60'. repeat split; auto.
    rewrite Hdf', Hdf60, <- app_assoc. reflexivity.
Qed.

Lemma long_window_run (record : bytes) (s0 s : state) (w : window)
    (rows : list (list pyval)) (rest : bytes) :
  window_rows w rows ->
  reaches record s0 s ->
  cps s = 0%nat ->
  lst s = [] \/ length (lst s) = 2%nat ->
  skipn (i s) record = encode_window w ++ rest ->
  exists s59 s60,
    reaches record s0 s59
    /\ (i s59 < length record)%nat
    /\ phases record s59 = Ok s60
    /\ skipn (i s60) record = rest
    /\ parsed_df s60 = parsed_df s ++ rows
    /\ cps s60 = 0%nat
    /\ length (lst s60) = 2%nat.
Proof.
  intros (t & txt & interval & minutes & Ht & Hsave & Hsamples & Hne & Hrows)
    Hr Hcps Hlst Hin.
  destruct Hrows as [|t t' m ms rows Hlen Hplain Hadd Hrows]; [contradiction|].
  unfold encode_window in Hin. rewrite Hsamples in Hin.
  cbn [concat] in Hin. rewrite <- !app_assoc in Hin.
  destruct (first_minute_run record s0 s w m (concat ms ++ rest) t t' txt interval)
    as (s59 & s60 & Hr59 & Hlt59 & Hp60 & Hin60 & Hdf60 & Hcps60 & Hlst60
        & Hst60 & Ht60 & Htxt60); auto.
  destruct ms as [|m2 ms'].
  - inversion Hrows; subst. cbn [concat app] in Hin60.
    exists s59, s60. rewrite Hlst60. repeat split; auto.
  - assert (Hbody : body record s59 = Running s60).
    { unfold body. rewrite Hp60.
      inversion Hrows as [|? ? ? ? ? Hlen2 Hplain2 _ _]; subst.
      destruct m2 as [|b2 m2']; [discriminate|].
      inversion Hplain2 as [|? ? [_ Hb2] _]; subst.
      cbn [concat app] in Hin60.
      now rewrite (eod_check_other _ _ b2 _ Hin60 Hb2). }
    destruct (minutes_run record s0 txt rest (m2 :: ms') t' rows Hrows
                ltac:(discriminate) s60)
      as (s59' & s60' & Hr' & Hlt' & Hp' & Hin' & Hdf' & Hcps' & Hlst'); auto.
    { eapply reaches_pass; [exact Hr59|exact Hlt59|exact Hbody]. }
    exists s59', s60'. repeat split; auto.
    rewrite Hdf', Hdf60, <- app_assoc. reflexivity.
Qed.

Lemma long_windows_run (record : bytes) (g : globals) :
  forall ws rowss s,
    ws <> [] ->
    Forall2 window_rows ws rowss ->
    reaches record (init_state g) s ->
    cps s = 0%nat ->
    lst s = [] \/ length (lst s) = 2%nat ->
    skipn (i s) record = history_image ws ->
    bin_to_csv record g = Some (CsvAtSentinel (parsed_df s ++ concat rowss)).
Proof.
  induction ws as [|w ws IH]; intros rowss s Hne Hrows Hr Hcps Hlst Hin;
    [contradiction|].
  inversion Hrows as [|? rows ? rowss' Hrow Hrows']; subst.
  unfold history_image in Hin. cbn [flat_map] in Hin.
  rewrite <- app_assoc in Hin.
  destruct (long_window_run record _ s w rows _ Hrow Hr Hcps Hlst Hin)
    as (s59 & s60 & Hr59 & Hlt59 & Hp60 & Hin60 & Hdf60 & Hcps60 & Hlst60).
  cbn [concat]. rewrite app_assoc, <- Hdf60.
  destruct ws as [|w' ws'].
  - inversion Hrows'; subst. cbn [flat_map app concat] in Hin60 |- *.
    rewrite app_nil_r.
    apply (returns_at_sentinel record g s59 s60); auto.
    apply (sentinel_at_skipn record (i s60) []). exact Hin60.
  - assert (Hbody : body record s59 = Running s60).
    { unfold body. rewrite Hp60.
      cbn [flat_map] in Hin60. rewrite <- app_assoc in Hin60.
      destruct (encode_window_head w' (flat_map encode_window ws' ++ [255; 255; 255]))
        as [tl Htl].
      rewrite Htl in Hin60.
      now rewrite (eod_check_other _ _ 0x55 tl Hin60 ltac:(discriminate)). }
    apply (IH rowss' s60); auto.
    + discriminate.
    + eapply reaches_pass; [exact Hr59|exact Hlt59|exact Hbody].
Qed.

(** X22: a timestamp record followed by several minutes of samples, as the
    device writes them (one timestamp record for three minutes).  In an
    image made of windows, each an optional tag-5 record, a tag-0 timestamp
    record with an existing date and a save mode from 0 to 5, and one or more
    minutes of sixty samples none of which is [0x55] or [0xFF], followed by
    unused flash, every minute becomes one row: the first row of a window
    carries the timestamp of its record, every further row the timestamp of
    the row before plus one minute, and the next timestamp record replaces
    the timestamp that was advanced last. *)
Theorem long_windows_decoded (ws : list window)
    (rowss : list (list (list pyval))) (g : globals) :
  ws <> [] ->
  Forall2 window_rows ws rowss ->
  bin_to_csv (history_image ws) g = Some (CsvAtSentinel (concat rowss)).
Proof.
  intros Hne Hrows.
  apply (long_windows_run (history_image ws) g ws rowss (init_state g));
    auto using reaches_start.
Qed.

Lemma three_minutes_window_rows :
  window_rows three_minutes_window three_minutes_rows.
Proof.
  assert (Hplain : forall b n, b <> 0x55 -> b <> 255 ->
                               Forall plain_sample (repeat b n)).
  { intros b n H1 H2. apply Forall_forall. intros x Hx.
    apply repeat_spec in Hx. subst. split; assumption. }
  exists (mkDatetime 2023 12 31 23 58 34), "Every Second"%string, 1,
    [repeat 1 60; repeat 2 60; repeat 3 60].
  split; [reflexivity|]. split; [reflexivity|]. split; [reflexivity|].
  split; [discriminate|].
  apply (minute_rows_cons _ _ (mkDatetime 2023 12 31 23 59 34));
    [reflexivity|apply Hplain; discriminate|reflexivity|].
  apply (minute_rows_cons _ _ (mkDatetime 2024 1 1 0 0 34));
    [reflexivity|apply Hplain; discriminate|reflexivity|].
  apply (minute_rows_cons _ _ (mkDatetime 2024 1 1 0 1 34));
    [reflexivity|apply Hplain; discriminate|reflexivity|].
  constructor.
Qed.

Lemma long_windows_decoded_witness :
  bin_to_csv (history_image [three_minutes_window]) fresh_globals
  = Some (CsvAtSentinel three_minutes_rows).
Proof.
  rewrite <- (app_nil_r three_minutes_rows).
  apply (long_windows_decoded [three_minutes_window] [three_minutes_rows]
           fresh_globals).
  - discriminate.
  - constructor; [exact three_minutes_window_rows|constructor].
Defined.
